(** * The agent workflow runner of the document-analysis application

    A shallow embedding of [runWorkflow] (App.tsx), of the service calls it
    awaits (services/geminiService) and of the data model (types), followed
    by the rest of the page (its document, its viewer, its task store and
    its keywords), and then by the properties of the runner, the
    structured-output extraction, the result aggregation and the page. *)

From Stdlib Require Import Strings.Ascii Strings.String Floats.SpecFloat ZArith.
From stdpp Require Import base option strings list gmap pretty sorting.

Set Warnings "-register-all".
Set Default Proof Using "Type".

(** ** Host-language values and built-ins *)

Module Js.

(** The line feed and the double quote, which have no literal form here. *)
Definition nl : string := String "010"%char EmptyString.
Definition dquote : string := String "034"%char EmptyString.

(** The values [JSON.parse] can return.  [Null] is also the [null] the
    runner stores in [outputJson]; a number is an IEEE 754 double; an object
    is a finite map from its own property names to values. *)
Inductive value : Type :=
| Null
| Bool (b : bool)
| Num (f : spec_float)
| Str (s : string)
| Arr (elems : list value)
| Obj (props : gmap string value).

(** What is thrown and caught: an [Error] object with its message, or any
    other thrown value. *)
Inductive thrown : Type :=
| ErrorObject (message : string)
| OtherThrown.

(** ToBoolean: [null], [false], [0], [-0], [NaN] and the empty string are
    falsy; every array and object is truthy. *)
Definition truthy (v : value) : bool :=
  match v with
  | Null => false
  | Bool b => b
  | Num (S754_zero _) => false
  | Num S754_nan => false
  | Num _ => true
  | Str s => negb (bool_decide (s = EmptyString))
  | Arr _ => true
  | Obj _ => true
  end.

(** [v.key] for the keys the runner reads ([sentiment], [name], [type]):
    none of them is a property of a built-in prototype, so only an object's
    own property answers; [None] is [undefined]. *)
Definition getProp (v : value) (key : string) : option value :=
  match v with
  | Obj props => props !! key
  | _ => None
  end.

Definition isArray (v : value) : bool :=
  match v with Arr _ => true | _ => false end.

(** [typeof v === 'string'], for a property that may be [undefined]. *)
Definition isString (v : option value) : bool :=
  match v with Some (Str _) => true | _ => false end.

(** [toLowerCase] on the letters A-Z.  The runner compares its result with
    [positive] and [negative] only; no character outside A-Z lowercases to
    one of their letters, so the comparison is decided by this range. *)
Definition lowerChar (c : ascii) : ascii :=
  let n := nat_of_ascii c in
  if (65 <=? n)%nat && (n <=? 90)%nat then ascii_of_nat (n + 32) else c.

Fixpoint toLowerCase (s : string) : string :=
  match s with
  | EmptyString => EmptyString
  | String c s' => String (lowerChar c) (toLowerCase s')
  end.

(** [Array.prototype.join] over already converted elements. *)
Fixpoint join (sep : string) (parts : list string) : string :=
  match parts with
  | [] => EmptyString
  | [p] => p
  | p :: ps => p +:+ sep +:+ join sep ps
  end.

(** The built-ins of the host whose algorithms are not part of the
    repository: [JSON.parse] ([None] when it throws a [SyntaxError]) and the
    conversion of a number to a string.  [JSON.parse] rejects the empty
    text. *)
Class Host : Type := {
  JSON_parse : string -> option value;
  Number_toString : spec_float -> string;
  JSON_parse_empty : JSON_parse EmptyString = None
}.

Section WithHost.
Context {host : Host}.

(** [String(v)]: [None] is the [TypeError] of an object that cannot be
    converted to a primitive, which is the case as soon as it has an own
    property named [toString] (a parsed value is never callable, and the
    inherited [valueOf] returns the object itself).  An array is joined with
    commas, [null] elements giving the empty string. *)
Fixpoint ToString (v : value) : option string :=
  match v with
  | Null => Some "null"
  | Bool true => Some "true"
  | Bool false => Some "false"
  | Num f => Some (Number_toString f)
  | Str s => Some s
  | Arr elems =>
      join "," <$>
        mapM (fun e => match e with Null => Some EmptyString | _ => ToString e end) elems
  | Obj props =>
      match props !! "toString" with
      | Some _ => None
      | None => Some "[object Object]"
      end
  end.

End WithHost.

(** *** The regular expression of the fenced block

    [/```json\n([\s\S]*?)\n```/] as the matcher runs it: start positions
    from the left, and at each one the opening fence, then the shortest run
    of characters that is followed by the closing fence. *)

Definition fenceOpen : string := "```json" +:+ nl.
Definition fenceClose : string := nl +:+ "```".

(** The rest of [s] after the literal [p], when [s] starts with it. *)
Fixpoint stripPrefix (p s : string) : option string :=
  match p, s with
  | EmptyString, _ => Some s
  | String a p', String b s' => if bool_decide (a = b) then stripPrefix p' s' else None
  | String _ _, EmptyString => None
  end.

(** The lazy group [([\s\S]*?)] followed by [close], matched at the head of
    [s]: the group grows one character at a time until [close] follows. *)
Fixpoint lazyUntil (close s : string) : option string :=
  match stripPrefix close s with
  | Some _ => Some EmptyString
  | None =>
      match s with
      | EmptyString => None
      | String c s' => String c <$> lazyUntil close s'
      end
  end.

(** One attempt at the start of [s]; the capture group when it matches. *)
Definition matchHere (s : string) : option string :=
  stripPrefix fenceOpen s ≫= lazyUntil fenceClose.

(** [s.match(re)?.[1]]: the capture group of the leftmost match. *)
Fixpoint jsonMatch (s : string) : option string :=
  match matchHere s with
  | Some g => Some g
  | None =>
      match s with
      | EmptyString => None
      | String _ s' => jsonMatch s'
      end
  end.

End Js.

(** ** The data model (types) *)

Module Types.
Import Js.

Inductive AgentStatus : Type := Pending | Running | Success | Error.

#[export] Instance AgentStatus_eq_dec : EqDecision AgentStatus.
Proof. solve_decision. Defined.

Record Agent : Type := mkAgent {
  id : string;
  name : string;
  prompt : string;
  status : AgentStatus;
  model : string;
  output : option string;
  error : option string;
  outputJson : value
}.

(** The tally [{ positive, negative, neutral }]. *)
Record SentimentTally : Type := mkTally {
  positive : nat;
  negative : nat;
  neutral : nat
}.

(** The entities are the elements of the parsed array that passed the
    filter, as they are (an object with a string [name] and a string
    [type], and whatever else it holds). *)
Record AnalysisResult : Type := mkAnalysis {
  sentiment : option SentimentTally;
  entities : option (list value)
}.

End Types.

(** ** The service calls (services/geminiService)

    [ai.models.generateContent] is the external provider.  A [Provider]
    gives its answer to the n-th request a run issues, for the model and the
    contents of the request: [Some text], or [None] when the call fails.
    A service function is read in two halves, its request and what it makes
    of the provider's reply, so that a run can be followed across the await
    in between. *)

Module GeminiService.
Import Js Types.

Definition Provider : Type := nat -> string -> string -> option string.

Definition fullPrompt (agent : Agent) (documentContent : string) : string :=
  "DOCUMENT CONTENT:" +:+ nl +:+ "---" +:+ nl +:+ documentContent +:+ nl +:+ "---"
  +:+ nl +:+ nl +:+ "TASK:" +:+ nl +:+ prompt agent.

(** [runAgent], from the reply to its request on: the text of the response,
    or the [Error] thrown in place of the provider's failure, whose message
    names the agent. *)
Definition runAgent (reply : option string) (agent : Agent) : string + thrown :=
  match reply with
  | Some text => inl text
  | None => inr (ErrorObject ("Agent " +:+ dquote +:+ name agent +:+ dquote +:+ " failed to execute."))
  end.

Definition followUpModel : string := "gemini-2.5-flash".

Definition followUpPrompt (documentContent agentOutputs : string) : string :=
  "Based on the original document and the analysis performed by various AI agents, generate 3 insightful follow-up questions a user might have. The original document is provided below, followed by the outputs from the agents."
  +:+ nl +:+ nl +:+ "<Original_Document>" +:+ nl +:+ documentContent +:+ nl
  +:+ "</Original_Document>" +:+ nl +:+ nl +:+ "<Agent_Outputs>" +:+ nl +:+ agentOutputs
  +:+ nl +:+ "</Agent_Outputs>" +:+ nl +:+ nl
  +:+ "Please provide only the 3 questions, each on a new line, prefixed with a hyphen.".

Definition generateFollowUpQuestions (reply : option string) : string + thrown :=
  match reply with
  | Some text => inl text
  | None => inr (ErrorObject "Failed to generate follow-up questions.")
  end.

End GeminiService.

(** ** The application state and [runWorkflow] (App.tsx) *)

Module App.
Import Js Types GeminiService.

(** The record of a run, in order: each update of the task list (with the
    list as the update leaves it) and each call of a service. *)
Inductive Event : Type :=
| SetAgents (now : list Agent)
| CallRunAgent (agent : Agent) (documentContent : string)
| CallGenerateFollowUpQuestions (documentContent agentOutputs : string).

(** The state [runWorkflow] writes, with the record of the run. *)
Record State : Type := mkState {
  agents : list Agent;
  isProcessing : bool;
  analysisResult : option AnalysisResult;
  followUpQuestions : option string;
  trace : list Event
}.

Definition setIsProcessing (b : bool) (st : State) : State :=
  mkState (agents st) b (analysisResult st) (followUpQuestions st) (trace st).

Definition setAnalysisResult (r : option AnalysisResult) (st : State) : State :=
  mkState (agents st) (isProcessing st) r (followUpQuestions st) (trace st).

Definition setFollowUpQuestions (q : option string) (st : State) : State :=
  mkState (agents st) (isProcessing st) (analysisResult st) q (trace st).

Definition observe (e : Event) (st : State) : State :=
  mkState (agents st) (isProcessing st) (analysisResult st) (followUpQuestions st)
    (trace st ++ [e]).

(** Modelled from the spec: the setter returned by [useLocalStorage]
    (hooks/useLocalStorage is not among the sources).  It is taken to be a
    state setter as the spec's publish step describes it: an updater function
    is applied to the task list as it stands, and the result is the task list
    from then on. *)
Definition setAgents (update : list Agent -> list Agent) (st : State) : State :=
  let now := update (agents st) in
  mkState now (isProcessing st) (analysisResult st) (followUpQuestions st)
    (trace st ++ [SetAgents now]).

(** [{ ...a, status: Pending, output: null, error: null, outputJson: null }] *)
Definition resetAgent (a : Agent) : Agent :=
  mkAgent (id a) (name a) (prompt a) Pending (model a) None None Null.

(** [{ ...a, status: AgentStatus.Running }] *)
Definition markRunning (a : Agent) : Agent :=
  mkAgent (id a) (name a) (prompt a) Running (model a) (output a) (error a) (outputJson a).

(** [{ ...a, ...successfulUpdate }] with
    [successfulUpdate = { status: Success, output, outputJson, error: null }] *)
Definition successfulUpdate (out : string) (json : value) (a : Agent) : Agent :=
  mkAgent (id a) (name a) (prompt a) Success (model a) (Some out) None json.

(** [{ ...a, ...errorUpdate }] with
    [errorUpdate = { status: Error, error: errorMessage }] *)
Definition errorUpdate (errorMessage : string) (a : Agent) : Agent :=
  mkAgent (id a) (name a) (prompt a) Error (model a) (output a) (Some errorMessage)
    (outputJson a).

(** [list.map(a => a.id === agent.id ? f(a) : a)] *)
Definition mapById (agentId : string) (f : Agent -> Agent) (l : list Agent) : list Agent :=
  (fun a => if bool_decide (id a = agentId) then f a else a) <$> l.

(** [error instanceof Error ? error.message : 'An unknown error occurred'] *)
Definition errorMessageOf (e : thrown) : string :=
  match e with
  | ErrorObject message => message
  | OtherThrown => "An unknown error occurred"
  end.

Definition followUpEntry (agent : Agent) (out : string) : string :=
  "--- Agent: " +:+ name agent +:+ " ---" +:+ nl +:+ out.

Section WithHost.
Context {host : Host}.

(** The extraction of the structured output (lines 293-301): the first
    fenced block, parsed when its content is not empty; [null] when there is
    no block, when the content is empty, and when [JSON.parse] throws (the
    exception is caught there). *)
Definition extractOutputJson (out : string) : value :=
  match jsonMatch out with
  | Some content =>
      if bool_decide (content = EmptyString) then Null
      else match JSON_parse content with
           | Some v => v
           | None => Null
           end
  | None => Null
  end.

(** *** The aggregation (lines 316-334) *)

Definition sentimentRole : string := "Sentiment Analyzer".
Definition entityRole : string := "Entity Extractor".

Definition successfulAgents (finalAgentsState : list Agent) : list Agent :=
  filter (fun a => status a = Success) finalAgentsState.

Definition findByName (role : string) (l : list Agent) : option Agent :=
  List.find (fun a => bool_decide (name a = role)) l.

Definition tallyOf (s : string) : SentimentTally :=
  if bool_decide (s = "positive") then mkTally 1 0 0
  else if bool_decide (s = "negative") then mkTally 0 1 0
  else mkTally 0 0 1.

(** [sentimentAgent?.outputJson?.sentiment]; [None] is [undefined]. *)
Definition sentimentField (sentimentAgent : option Agent) : option value :=
  a ← sentimentAgent; getProp (outputJson a) "sentiment".

(** The sentiment of [newAnalysis]; the outer [None] is the [TypeError] of
    [String(...)], which nothing around the aggregation catches. *)
Definition sentimentPart (sentimentAgent : option Agent) : option (option SentimentTally) :=
  match sentimentField sentimentAgent with
  | Some v =>
      if truthy v then
        s ← ToString v; Some (Some (tallyOf (toLowerCase s)))
      else Some None
  | None => Some None
  end.

(** [e && typeof e.name === 'string' && typeof e.type === 'string'] *)
Definition wellTypedEntity (e : value) : bool :=
  truthy e && isString (getProp e "name") && isString (getProp e "type").

(** The entities of [newAnalysis]. *)
Definition arrayElements (v : value) : list value :=
  match v with Arr elems => elems | _ => [] end.

(** The entities of [newAnalysis]: assigned when
    [entityAgent?.outputJson && Array.isArray(entityAgent.outputJson)]. *)
Definition entitiesPart (entityAgent : option Agent) : option (list value) :=
  match entityAgent with
  | Some a =>
      if truthy (outputJson a) && isArray (outputJson a)
      then Some (List.filter wellTypedEntity (arrayElements (outputJson a)))
      else None
  | None => None
  end.

(** [newAnalysis] as it stands before line 331, from the successful agents. *)
Definition newAnalysis (successful : list Agent) : option AnalysisResult :=
  s ← sentimentPart (findByName sentimentRole successful);
  Some (mkAnalysis s (entitiesPart (findByName entityRole successful))).

(** [newAnalysis.sentiment || (newAnalysis.entities && newAnalysis.entities.length > 0)] *)
Definition worthShowing (r : AnalysisResult) : bool :=
  match sentiment r, entities r with
  | Some _, _ => true
  | None, Some (_ :: _) => true
  | None, _ => false
  end.

(** The whole block of lines 316-334 on the state: [None] when it throws. *)
Definition aggregate (finalAgentsState : list Agent) (st : State) : option State :=
  match successfulAgents finalAgentsState with
  | [] => Some st
  | successful =>
      r ← newAnalysis successful;
      Some (if worthShowing r then setAnalysisResult (Some r) st else st)
  end.

(** *** The run (lines 272-346) *)

(** The variables of a run that outlive an iteration of its loop;
    [requests] counts the provider requests the run has issued. *)
Record Locals : Type := mkLocals {
  documentContent : string;
  finalAgentsState : list Agent;
  agentOutputsForFollowup : list string;
  requests : nat
}.

(** How the promise of [runWorkflow] settles. *)
Inductive Outcome : Type := Resolved | Rejected.

(** Line 287, and the record of the call of line 290. *)
Definition beginIteration (agent : Agent) (L : Locals) (st : State) : State :=
  observe (CallRunAgent agent (documentContent L))
    (setAgents (mapById (id agent) markRunning) st).

(** Lines 291-305, on the run's variables and on the state. *)
Definition fulfilledLocals (agent : Agent) (out : string) (L : Locals) : Locals :=
  mkLocals (documentContent L)
    (mapById (id agent) (successfulUpdate out (extractOutputJson out)) (finalAgentsState L))
    (agentOutputsForFollowup L ++ [followUpEntry agent out])
    (S (requests L)).

Definition fulfilledState (agent : Agent) (out : string) (st : State) : State :=
  setAgents (mapById (id agent) (successfulUpdate out (extractOutputJson out))) st.

(** Lines 307-311. *)
Definition rejectedLocals (agent : Agent) (e : thrown) (L : Locals) : Locals :=
  mkLocals (documentContent L)
    (mapById (id agent) (errorUpdate (errorMessageOf e)) (finalAgentsState L))
    (agentOutputsForFollowup L)
    (S (requests L)).

Definition rejectedState (agent : Agent) (e : thrown) (st : State) : State :=
  setAgents (mapById (id agent) (errorUpdate (errorMessageOf e))) st.

(** The request [runAgent(agent, documentFile.content)] sends. *)
Definition agentReply (provider : Provider) (agent : Agent) (L : Locals) : option string :=
  provider (requests L) (model agent) (fullPrompt agent (documentContent L)).

(** The loop of lines 284-314 over the agents still to run; the failure
    branch returns without a recursive call, which is the [break]. *)
Fixpoint loop (provider : Provider) (rest : list Agent) (L : Locals) (st : State)
  : Locals * State :=
  match rest with
  | [] => (L, st)
  | agent :: rest' =>
      let st1 := beginIteration agent L st in
      match runAgent (agentReply provider agent L) agent with
      | inl out =>
          loop provider rest' (fulfilledLocals agent out L) (fulfilledState agent out st1)
      | inr e => (rejectedLocals agent e L, rejectedState agent e st1)
      end
  end.

Definition followUpOutputs (L : Locals) : string :=
  join (nl +:+ nl) (agentOutputsForFollowup L).

Definition followUpReply (provider : Provider) (L : Locals) : option string :=
  provider (requests L) followUpModel (followUpPrompt (documentContent L) (followUpOutputs L)).

(** Lines 338-343 once the call has settled: the questions are stored, or
    the failure is logged and nothing is stored. *)
Definition followUpSettled (reply : option string) (st : State) : State :=
  match generateFollowUpQuestions reply with
  | inl questions => setFollowUpQuestions (Some questions) st
  | inr _ => st
  end.

(** Lines 336-345. *)
Definition followUp (provider : Provider) (L : Locals) (st : State) : State :=
  setIsProcessing false
    match agentOutputsForFollowup L with
    | [] => st
    | _ :: _ =>
        followUpSettled (followUpReply provider L)
          (observe (CallGenerateFollowUpQuestions (documentContent L) (followUpOutputs L)) st)
    end.

(** Lines 274-282: the state as the loop finds it, and the run's variables. *)
Definition agentsToRun (st : State) : list Agent := resetAgent <$> agents st.

Definition resetState (st : State) : State :=
  setAgents (fun _ => agentsToRun st)
    (setFollowUpQuestions None (setAnalysisResult None (setIsProcessing true st))).

Definition initialLocals (content : string) (st : State) : Locals :=
  mkLocals content (agentsToRun st) [] 0.

(** [!documentFile.content || agents.length === 0] *)
Definition nothingToRun (content : string) (st : State) : bool :=
  bool_decide (content = EmptyString) || bool_decide (length (agents st) = 0).

(** Lines 316-345, after the loop.  An exception of the aggregation leaves
    the function where it is thrown: the promise is rejected and the rest is
    not run. *)
Definition conclude (provider : Provider) (L : Locals) (st : State) : Outcome * State :=
  match aggregate (finalAgentsState L) st with
  | None => (Rejected, st)
  | Some st1 => (Resolved, followUp provider L st1)
  end.

(** [runWorkflow], for the document content and the task list of the state
    it is called in. *)
Definition runWorkflow (provider : Provider) (content : string) (st : State)
  : Outcome * State :=
  if nothingToRun content st then (Resolved, st)
  else
    let '(L, st1) := loop provider (agentsToRun st) (initialLocals content st) (resetState st) in
    conclude provider L st1.

(** *** The run as the event loop sees it

    [runWorkflow] is asynchronous: it runs until it awaits a service call,
    and is resumed with the call's result, on the state as it stands then.
    A [Run] is a run at such a point. *)
Inductive Run : Type :=
| AwaitRunAgent (agent : Agent) (rest : list Agent) (L : Locals)
| AwaitFollowUp (L : Locals)
| Settled (o : Outcome).

Definition afterLoop (L : Locals) (st : State) : Run * State :=
  match aggregate (finalAgentsState L) st with
  | None => (Settled Rejected, st)
  | Some st1 =>
      match agentOutputsForFollowup L with
      | [] => (Settled Resolved, setIsProcessing false st1)
      | _ :: _ =>
          (AwaitFollowUp L,
           observe (CallGenerateFollowUpQuestions (documentContent L) (followUpOutputs L)) st1)
      end
  end.

Definition enterLoop (rest : list Agent) (L : Locals) (st : State) : Run * State :=
  match rest with
  | [] => afterLoop L st
  | agent :: rest' => (AwaitRunAgent agent rest' L, beginIteration agent L st)
  end.

(** From the call of [runWorkflow] to its first await. *)
Definition start (content : string) (st : State) : Run * State :=
  if nothingToRun content st then (Settled Resolved, st)
  else enterLoop (agentsToRun st) (initialLocals content st) (resetState st).

(** From the result of the awaited call to the next await. *)
Definition resume (r : Run) (reply : option string) (st : State) : Run * State :=
  match r with
  | AwaitRunAgent agent rest L =>
      match runAgent reply agent with
      | inl out => enterLoop rest (fulfilledLocals agent out L) (fulfilledState agent out st)
      | inr e => afterLoop (rejectedLocals agent e L) (rejectedState agent e st)
      end
  | AwaitFollowUp L => (Settled Resolved, setIsProcessing false (followUpSettled reply st))
  | Settled _ => (r, st)
  end.

(** The reply the provider gives to the call a run awaits. *)
Definition awaitedReply (provider : Provider) (r : Run) : option string :=
  match r with
  | AwaitRunAgent agent _ L => agentReply provider agent L
  | AwaitFollowUp L => followUpReply provider L
  | Settled _ => None
  end.

(** A run left alone with the provider: resumed until it settles, for at
    most [fuel] awaits. *)
Fixpoint settle (provider : Provider) (fuel : nat) (r : Run) (st : State)
  : option (Outcome * State) :=
  match r, fuel with
  | Settled o, _ => Some (o, st)
  | _, O => None
  | _, S fuel' =>
      let '(r', st') := resume r (awaitedReply provider r) st in
      settle provider fuel' r' st'
  end.

Definition awaiting (r : Run) : bool :=
  match r with Settled _ => false | _ => true end.

(** The update of the task that the result of [runAgent] leads to. *)
Definition settledTask (agent : Agent) (reply : option string) : Agent -> Agent :=
  match runAgent reply agent with
  | inl out => successfulUpdate out (extractOutputJson out)
  | inr e => errorUpdate (errorMessageOf e)
  end.

(** The Run control of the page:
    [disabled={isProcessing || agents.length === 0 || !documentFile.content}] *)
Definition runDisabled (content : string) (st : State) : bool :=
  isProcessing st || bool_decide (length (agents st) = 0) || bool_decide (content = EmptyString).

End WithHost.

End App.

(** ** Vocabulary of the properties *)

Module Reading.
Import Js Types GeminiService App.

(** A task as the reset leaves it. *)
Definition pristine (a : Agent) : Prop :=
  status a = Pending /\ output a = None /\ error a = None /\ outputJson a = Null.

(** A task that succeeded: its output is there and its error is not. *)
Definition succeeded (a : Agent) : Prop :=
  status a = Success /\ is_Some (output a) /\ error a = None.

(** The invariant of the data model: nothing is set while a task is Pending
    or Running, and afterwards the output is set exactly when the task
    succeeded and the error exactly when it failed. *)
Definition taskInvariant (a : Agent) : Prop :=
  match status a with
  | Pending | Running => output a = None /\ error a = None /\ outputJson a = Null
  | Success => is_Some (output a) /\ error a = None
  | Error => output a = None /\ is_Some (error a)
  end.

(** Every task list published in a trace satisfies the invariant. *)
Definition snapshotsOk (events : list Event) : Prop :=
  Forall (fun e => match e with SetAgents now => Forall taskInvariant now | _ => True end) events.

(** [r] is the task [a] as the reset of line 278 leaves it: the same id,
    name, prompt and model, status Pending, and output, error and structured
    output null. *)
Definition resetOf (a r : Agent) : Prop :=
  id r = id a /\ name r = name a /\ prompt r = prompt a /\ model r = model a
  /\ status r = Pending /\ output r = None /\ error r = None /\ outputJson r = Null.

(** Every task list published in a trace lists the tasks of these ids, in
    this order. *)
Definition snapshotsKeep (ids : list string) (events : list Event) : Prop :=
  Forall (fun e => match e with SetAgents now => id <$> now = ids | _ => True end) events.

(** The entry of a task in the input of the follow-up synthesis: a task in
    status Success contributes its name and its output. *)
Definition successEntry (a : Agent) : option string :=
  match status a, output a with
  | Success, Some out => Some (followUpEntry a out)
  | _, _ => None
  end.

Definition successEntries (l : list Agent) : list string := omap successEntry l.

(** The agents [runAgent] was called for, in order. *)
Definition runAgentCalls (events : list Event) : list Agent :=
  omap (fun e => match e with CallRunAgent agent _ => Some agent | _ => None end) events.

(** Whether the follow-up synthesis was called. *)
Definition followUpCalled (events : list Event) : bool :=
  existsb (fun e => match e with CallGenerateFollowUpQuestions _ _ => true | _ => false end)
    events.

(** The message of the [Error] that [runAgent] throws for an agent. *)
Definition failureMessage (agent : Agent) : string :=
  "Agent " +:+ dquote +:+ name agent +:+ dquote +:+ " failed to execute.".

(** A fenced block is somewhere in the text. *)
Definition hasFencedBlock (out : string) : Prop :=
  exists before content after, out = before +:+ fenceOpen +:+ content +:+ fenceClose +:+ after.

(** [pat] occurs in [before +:+ pat +:+ after] at no earlier position than
    the one shown. *)
Definition firstOccurrence (pat before after : string) : Prop :=
  forall a b, before +:+ pat +:+ after = a +:+ pat +:+ b ->
    String.length before <= String.length a.

Section WithHost.
Context {host : Host}.

(** *** The run read position by position

    With pairwise distinct ids an update by id touches one position.  The
    following functions give, for the tasks still to run, the final tasks and
    the events of the loop position by position; [loop_by_position] below
    shows that the loop computes them. *)

Fixpoint settledFrom (provider : Provider) (content : string) (n : nat) (rest : list Agent)
  : list Agent :=
  match rest with
  | [] => []
  | agent :: rest' =>
      match provider n (model agent) (fullPrompt agent content) with
      | Some out =>
          successfulUpdate out (extractOutputJson out) agent
          :: settledFrom provider content (S n) rest'
      | None => errorUpdate (failureMessage agent) agent :: rest'
      end
  end.

Fixpoint eventsFrom (provider : Provider) (content : string) (settled : list Agent) (n : nat)
  (rest : list Agent) : list Event :=
  match rest with
  | [] => []
  | agent :: rest' =>
      SetAgents (settled ++ markRunning agent :: rest')
      :: CallRunAgent agent content
      :: match provider n (model agent) (fullPrompt agent content) with
         | Some out =>
             let agent' := successfulUpdate out (extractOutputJson out) agent in
             SetAgents (settled ++ agent' :: rest')
             :: eventsFrom provider content (settled ++ [agent']) (S n) rest'
         | None => [SetAgents (settled ++ errorUpdate (failureMessage agent) agent :: rest')]
         end
  end.

Fixpoint outputsFrom (provider : Provider) (content : string) (n : nat) (rest : list Agent)
  : list string :=
  match rest with
  | [] => []
  | agent :: rest' =>
      match provider n (model agent) (fullPrompt agent content) with
      | Some out => followUpEntry agent out :: outputsFrom provider content (S n) rest'
      | None => []
      end
  end.

(** C5 as the spec words it, in its weakest reading: whatever the sentiment
    field of the sentiment task holds, the aggregation produces a tally (the
    neutral one unless the field reads positive or negative). *)
Definition everySentimentTallied : Prop :=
  forall (final : list Agent) (a : Agent) (v : value),
    findByName sentimentRole (successfulAgents final) = Some a ->
    getProp (outputJson a) "sentiment" = Some v ->
    exists r t, newAnalysis (successfulAgents final) = Some r /\ sentiment r = Some t.

(** C6 as the spec words it: the entities of a result are never the empty
    sequence. *)
Definition entitiesNeverEmpty : Prop :=
  forall (final : list Agent) (r : AnalysisResult),
    newAnalysis (successfulAgents final) = Some r -> entities r <> Some [].

End WithHost.

End Reading.

(** ** Concrete inputs for the examples *)

Module Demo.
Import Js Types GeminiService App.

Definition quoted (s : string) : string := dquote +:+ s +:+ dquote.

(** The number 1. *)
Definition one : spec_float := S754_finite false 1 0.

(** [{"sentiment":"Positive"}] *)
Definition positiveText : string :=
  "{" +:+ quoted "sentiment" +:+ ":" +:+ quoted "Positive" +:+ "}".

(** [{"sentiment":{"toString":1}}] *)
Definition unconvertibleText : string :=
  "{" +:+ quoted "sentiment" +:+ ":{" +:+ quoted "toString" +:+ ":1}}".

(** [[{"name":"Acme","type":"Org"},{"name":"X"}]] *)
Definition entitiesText : string :=
  "[{" +:+ quoted "name" +:+ ":" +:+ quoted "Acme" +:+ "," +:+ quoted "type" +:+ ":"
  +:+ quoted "Org" +:+ "},{" +:+ quoted "name" +:+ ":" +:+ quoted "X" +:+ "}]".

Definition positiveValue : value := Obj {[ "sentiment" := Str "Positive" ]}.
Definition unconvertibleValue : value :=
  Obj {[ "sentiment" := Obj {[ "toString" := Num one ]} ]}.
Definition acme : value := Obj (<[ "name" := Str "Acme" ]> {[ "type" := Str "Org" ]}).
Definition entitiesValue : value := Arr [acme; Obj {[ "name" := Str "X" ]}].

(** A host that parses the texts above as [JSON.parse] does and rejects
    every other text; the examples convert no number but 1. *)
Definition demoParse (s : string) : option value :=
  if bool_decide (s = positiveText) then Some positiveValue
  else if bool_decide (s = unconvertibleText) then Some unconvertibleValue
  else if bool_decide (s = entitiesText) then Some entitiesValue
  else if bool_decide (s = "true") then Some (Bool true)
  else None.

#[export] Instance demoHost : Host :=
  {| JSON_parse := demoParse; Number_toString := fun _ => "1"; JSON_parse_empty := eq_refl |}.

(** A response that carries [content] in a fenced block. *)
Definition fenced (content : string) : string :=
  "Result:" +:+ nl +:+ fenceOpen +:+ content +:+ fenceClose +:+ nl +:+ "Done.".

Definition sentimentTask : Agent :=
  mkAgent "agent-1" "Sentiment Analyzer" "Classify the sentiment." Pending "gemini-2.5-flash"
    None None Null.

Definition entityTask : Agent :=
  mkAgent "agent-2" "Entity Extractor" "List the entities." Pending "gemini-2.5-flash"
    None None Null.

Definition summaryTask : Agent :=
  mkAgent "agent-3" "Summarizer" "Summarize." Pending "gemini-2.5-pro" None None Null.

(** The state before a run: nothing processed, nothing observed. *)
Definition idle (tasks : list Agent) : State := mkState tasks false None None [].

Definition document : string := "Acme reported a strong quarter.".

(** Providers: one that always answers, one whose n-th request fails. *)
Definition answering (text : string) : Provider := fun _ _ _ => Some text.

Definition failingAt (k : nat) (text : string) : Provider :=
  fun n _ _ => if bool_decide (n = k) then None else Some text.

(** One that answers the n-th request with the n-th text of a script, and
    fails when the script is over. *)
Definition scripted (texts : list string) : Provider := fun n _ _ => texts !! n.

Definition threeTasks : list Agent := [sentimentTask; entityTask; summaryTask].

(** Final tasks for the aggregation: a task that succeeded with the given
    structured output. *)
Definition succeededWith (task : Agent) (json : value) : Agent :=
  successfulUpdate "..." json task.

(** [{"sentiment":""}] as parsed: a sentiment field that is there and falsy. *)
Definition emptySentiment : value := Obj {[ "sentiment" := Str EmptyString ]}.

End Demo.

(** ** The rest of the page: text helpers *)

Module Text.
Import Js.

(** White space and line terminators of the language, in the UTF-8 reading
    of a text: the one-byte ones (tab, line feed, vertical tab, form feed,
    carriage return, space), U+00A0, and U+1680, U+2000 to U+200A, U+2028,
    U+2029, U+202F, U+205F, U+3000 and U+FEFF. *)
Definition oneByteSpace (c : ascii) : bool :=
  let n := nat_of_ascii c in
  (9 <=? n)%nat && (n <=? 13)%nat || (n =? 32)%nat.

Definition twoByteSpace (c1 c2 : ascii) : bool :=
  (nat_of_ascii c1 =? 194)%nat && (nat_of_ascii c2 =? 160)%nat.

Definition threeByteSpace (c1 c2 c3 : ascii) : bool :=
  let n1 := nat_of_ascii c1 in
  let n2 := nat_of_ascii c2 in
  let n3 := nat_of_ascii c3 in
  (n1 =? 225)%nat && (n2 =? 154)%nat && (n3 =? 128)%nat
  || (n1 =? 226)%nat && (n2 =? 128)%nat
     && ((128 <=? n3)%nat && (n3 <=? 138)%nat || (n3 =? 168)%nat || (n3 =? 169)%nat
         || (n3 =? 175)%nat)
  || (n1 =? 226)%nat && (n2 =? 129)%nat && (n3 =? 159)%nat
  || (n1 =? 227)%nat && (n2 =? 128)%nat && (n3 =? 128)%nat
  || (n1 =? 239)%nat && (n2 =? 187)%nat && (n3 =? 191)%nat.

(** [!s.trim()]: nothing is left of [s] once the white space is trimmed,
    which is the case when [s] is white space throughout. *)
Fixpoint isBlank (s : string) : bool :=
  match s with
  | EmptyString => true
  | String c1 s1 =>
      if oneByteSpace c1 then isBlank s1
      else
        match s1 with
        | EmptyString => false
        | String c2 s2 =>
            if twoByteSpace c1 c2 then isBlank s2
            else
              match s2 with
              | EmptyString => false
              | String c3 s3 => threeByteSpace c1 c2 c3 && isBlank s3
              end
        end
  end.

Definition lineFeed : ascii := "010"%char.

(** [s.split('\n')] *)
Fixpoint splitLines (s : string) : list string :=
  match s with
  | EmptyString => [EmptyString]
  | String c s' =>
      if bool_decide (c = lineFeed) then EmptyString :: splitLines s'
      else
        match splitLines s' with
        | line :: lines => String c line :: lines
        | [] => [String c EmptyString]
        end
  end.

(** [q.replace(/^- /, '')] *)
Definition stripMarker (q : string) : string :=
  match stripPrefix "- " q with
  | Some rest => rest
  | None => q
  end.

(** The items of the follow-up list (line 603):
    [followUpQuestions.split('\n').filter(q => q.trim()).map(q => q.replace(/^- /, ''))] *)
Definition questionItems (followUpQuestions : string) : list string :=
  stripMarker <$> List.filter (fun q => negb (isBlank q)) (splitLines followUpQuestions).

(** No line feed in the text: it is one line. *)
Fixpoint singleLine (s : string) : bool :=
  match s with
  | EmptyString => true
  | String c s' => negb (bool_decide (c = lineFeed)) && singleLine s'
  end.

(** No dot in the name. *)
Fixpoint dotless (s : string) : bool :=
  match s with
  | EmptyString => true
  | String c s' => negb (bool_decide (c = "."%char)) && dotless s'
  end.

(** A character of the class [[^/.]]. *)
Definition extensionChar (c : ascii) : bool :=
  negb (bool_decide (c = "/"%char)) && negb (bool_decide (c = "."%char)).

Fixpoint extensionChars (s : string) : bool :=
  match s with
  | EmptyString => true
  | String c s' => extensionChar c && extensionChars s'
  end.

(** [/\.[^/.]+$/] matched at the head of [s]: a dot, then one character of
    the class or more, up to the end. *)
Definition extensionHere (s : string) : bool :=
  match s with
  | String c (String c' rest) =>
      bool_decide (c = "."%char) && extensionChars (String c' rest)
  | _ => false
  end.

(** [name.replace(/\.[^/.]+$/, "")]: the leftmost match is removed. *)
Fixpoint stripExtension (name : string) : string :=
  if extensionHere name then EmptyString
  else
    match name with
    | EmptyString => EmptyString
    | String c name' => String c (stripExtension name')
    end.

(** The name of the downloaded file (lines 360, 367 and 384). *)
Definition processedName (name extension : string) : string :=
  stripExtension name +:+ "_processed" +:+ "." +:+ extension.

End Text.

(** ** The rest of the data model (types) *)

Module DocumentType.
Inductive t : Type := EMPTY | PDF | TXT | PASTE.

#[global] Instance eq_dec : EqDecision t.
Proof. solve_decision. Defined.
End DocumentType.

(** What the page reads of a browser [File]. *)
Module File.
Record t : Type := make { name : string; type : string; size : nat }.
End File.

(** What the page reads of a document opened by the rendering library. *)
Module PdfDocument.
Record t : Type := make { numPages : nat }.
End PdfDocument.

Module DocumentFile.
Record t : Type := make {
  id : string;
  name : string;
  type : DocumentType.t;
  content : string;
  file : option File.t;
  pdfDoc : option PdfDocument.t
}.
End DocumentFile.

Module Keyword.
Record t : Type := make { id : string; text : string; color : string }.
End Keyword.

(** ** The rest of the page: its state and its handlers (App.tsx) *)

Module Page.
Import Js Types GeminiService App Text.

(** The floating-point numbers of the zoom: binary64. *)
Definition prec : Z := 53.
Definition emax : Z := 1024.

Definition float_0_25 : spec_float := S754_finite false 4503599627370496 (-54).
Definition float_0_5 : spec_float := S754_finite false 4503599627370496 (-53).
Definition float_1 : spec_float := S754_finite false 4503599627370496 (-52).
Definition float_3 : spec_float := S754_finite false 6755399441055744 (-51).

(** [Math.min] and [Math.max] of two numbers: [NaN] when one of them is,
    and the negative zero below the positive one. *)
Definition Math_min (a b : spec_float) : spec_float :=
  match SFcompare a b with
  | None => S754_nan
  | Some Lt => a
  | Some Gt => b
  | Some Eq => match a with S754_zero true => a | _ => b end
  end.

Definition Math_max (a b : spec_float) : spec_float :=
  match SFcompare a b with
  | None => S754_nan
  | Some Gt => a
  | Some Lt => b
  | Some Eq => match a with S754_zero false => a | _ => b end
  end.

(** [newKeyword]: the text and the color of the keyword being typed. *)
Record NewKeyword : Type := mkNewKeyword { newText : string; newColor : string }.

(** The state of the page that its handlers read and write.  [workflow] is
    the part [runWorkflow] writes; [alerts] records the messages shown with
    [alert]. *)
Record State : Type := mkPage {
  workflow : App.State;
  documentFile : DocumentFile.t;
  pastedContent : string;
  keywords : list Keyword.t;
  newKeyword : NewKeyword;
  isOcrProcessing : bool;
  isLoadingFile : bool;
  isPdfLibReady : bool;
  selectedPages : gset nat;
  currentPage : nat;
  pdfZoom : spec_float;
  alerts : list string
}.

Definition withWorkflow (f : App.State -> App.State) (p : State) : State :=
  mkPage (f (workflow p)) (documentFile p) (pastedContent p) (keywords p) (newKeyword p)
    (isOcrProcessing p) (isLoadingFile p) (isPdfLibReady p) (selectedPages p) (currentPage p)
    (pdfZoom p) (alerts p).

Definition setDocumentFile (f : DocumentFile.t -> DocumentFile.t) (p : State) : State :=
  mkPage (workflow p) (f (documentFile p)) (pastedContent p) (keywords p) (newKeyword p)
    (isOcrProcessing p) (isLoadingFile p) (isPdfLibReady p) (selectedPages p) (currentPage p)
    (pdfZoom p) (alerts p).

Definition setPastedContent (s : string) (p : State) : State :=
  mkPage (workflow p) (documentFile p) s (keywords p) (newKeyword p)
    (isOcrProcessing p) (isLoadingFile p) (isPdfLibReady p) (selectedPages p) (currentPage p)
    (pdfZoom p) (alerts p).

Definition setKeywords (f : list Keyword.t -> list Keyword.t) (p : State) : State :=
  mkPage (workflow p) (documentFile p) (pastedContent p) (f (keywords p)) (newKeyword p)
    (isOcrProcessing p) (isLoadingFile p) (isPdfLibReady p) (selectedPages p) (currentPage p)
    (pdfZoom p) (alerts p).

Definition setNewKeyword (f : NewKeyword -> NewKeyword) (p : State) : State :=
  mkPage (workflow p) (documentFile p) (pastedContent p) (keywords p) (f (newKeyword p))
    (isOcrProcessing p) (isLoadingFile p) (isPdfLibReady p) (selectedPages p) (currentPage p)
    (pdfZoom p) (alerts p).

Definition setIsOcrProcessing (b : bool) (p : State) : State :=
  mkPage (workflow p) (documentFile p) (pastedContent p) (keywords p) (newKeyword p)
    b (isLoadingFile p) (isPdfLibReady p) (selectedPages p) (currentPage p)
    (pdfZoom p) (alerts p).

Definition setIsLoadingFile (b : bool) (p : State) : State :=
  mkPage (workflow p) (documentFile p) (pastedContent p) (keywords p) (newKeyword p)
    (isOcrProcessing p) b (isPdfLibReady p) (selectedPages p) (currentPage p)
    (pdfZoom p) (alerts p).

Definition setSelectedPages (s : gset nat) (p : State) : State :=
  mkPage (workflow p) (documentFile p) (pastedContent p) (keywords p) (newKeyword p)
    (isOcrProcessing p) (isLoadingFile p) (isPdfLibReady p) s (currentPage p)
    (pdfZoom p) (alerts p).

Definition setCurrentPage (f : nat -> nat) (p : State) : State :=
  mkPage (workflow p) (documentFile p) (pastedContent p) (keywords p) (newKeyword p)
    (isOcrProcessing p) (isLoadingFile p) (isPdfLibReady p) (selectedPages p)
    (f (currentPage p)) (pdfZoom p) (alerts p).

Definition setPdfZoom (f : spec_float -> spec_float) (p : State) : State :=
  mkPage (workflow p) (documentFile p) (pastedContent p) (keywords p) (newKeyword p)
    (isOcrProcessing p) (isLoadingFile p) (isPdfLibReady p) (selectedPages p) (currentPage p)
    (f (pdfZoom p)) (alerts p).

Definition alert (message : string) (p : State) : State :=
  mkPage (workflow p) (documentFile p) (pastedContent p) (keywords p) (newKeyword p)
    (isOcrProcessing p) (isLoadingFile p) (isPdfLibReady p) (selectedPages p) (currentPage p)
    (pdfZoom p) (alerts p ++ [message]).

(** The constants of the page that are not among the sources:
    [T.noDocument] (LOCALIZATION) and [MODEL_OPTIONS[0].value]. *)
Class Constants : Type := {
  noDocument : string;
  firstModel : string
}.

Section WithConstants.
Context {host : Host} {constants : Constants}.

(** [{ id: 'initial', name: T.noDocument, type: DocumentType.EMPTY, content: '' }] *)
Definition initialDocument : DocumentFile.t :=
  DocumentFile.make "initial" noDocument DocumentType.EMPTY EmptyString None None.

(** Lines 124-134. *)
Definition resetDocumentState (p : State) : State :=
  withWorkflow (setFollowUpQuestions None)
    (setPdfZoom (fun _ => float_1)
       (setCurrentPage (fun _ => 1)
          (setSelectedPages ∅
             (setKeywords (fun _ => [])
                (setIsOcrProcessing false
                   (withWorkflow (setIsProcessing false)
                      (withWorkflow (setAnalysisResult None)
                         (setDocumentFile (fun _ => initialDocument) p)))))))).

(** Lines 136-139. *)
Definition resetAppState (p : State) : State :=
  withWorkflow (setAgents (fun _ => [])) (resetDocumentState p).

(** [for (let i = 1; i <= numPages; i++) allPages.add(i)] *)
Definition allPages (pdf : PdfDocument.t) : gset nat :=
  list_to_set (seq 1 (PdfDocument.numPages pdf)).

(** How the reading of a picked PDF ends: the [FileReader] fails, the
    rendering library rejects the bytes, or it opens the document. *)
Inductive PdfRead : Type :=
| ReaderError
| PdfRejected
| PdfOpened (pdf : PdfDocument.t).

(** Lines 142-192, for the file picked ([event.target.files?.[0]]), the end
    of the reading of a PDF, and the text of the file ([None] when
    [file.text()] fails). *)
Definition handleFileChange (picked : option File.t) (pdfRead : PdfRead)
    (textRead : option string) (p : State) : State :=
  match picked with
  | None => p
  | Some file =>
      let p1 := setIsLoadingFile true (resetDocumentState p) in
      if bool_decide (File.type file = "application/pdf") then
        if negb (isPdfLibReady p) then
          setIsLoadingFile false
            (alert "The PDF processing library is still loading. Please try again in a moment." p1)
        else
          match pdfRead with
          | PdfOpened pdf =>
              setIsLoadingFile false
                (setSelectedPages (allPages pdf)
                   (setCurrentPage (fun _ => 1)
                      (setDocumentFile
                         (fun _ => DocumentFile.make (File.name file) (File.name file)
                                     DocumentType.PDF EmptyString (Some file) (Some pdf))
                         p1)))
          | PdfRejected =>
              setIsLoadingFile false
                (alert "Failed to process the PDF file. It might be corrupted or in an unsupported format." p1)
          | ReaderError =>
              setIsLoadingFile false (alert "An error occurred while reading the file." p1)
          end
      else
        match textRead with
        | Some text =>
            setIsLoadingFile false
              (setDocumentFile
                 (fun _ => DocumentFile.make (File.name file) (File.name file)
                             DocumentType.TXT text (Some file) None)
                 p1)
        | None => setIsLoadingFile false (alert "Failed to read the text file." p1)
        end
  end.

(** Lines 194-204, at the time [now] of [Date.now()]. *)
Definition handlePasteLoad (now : nat) (p : State) : State :=
  if isBlank (pastedContent p) then p
  else
    setPastedContent EmptyString
      (setDocumentFile
         (fun _ => DocumentFile.make ("paste-" +:+ pretty now) "Pasted Content"
                     DocumentType.PASTE (pastedContent p) None None)
         (resetDocumentState p)).

(** Lines 206-214. *)
Definition handlePageSelection (pageNum : nat) (p : State) : State :=
  setSelectedPages
    (if bool_decide (pageNum ∈ selectedPages p) then selectedPages p ∖ {[pageNum]}
     else selectedPages p ∪ {[pageNum]})
    p.

(** Lines 216-221. *)
Definition handleSelectAllPages (p : State) : State :=
  match DocumentFile.pdfDoc (documentFile p) with
  | None => p
  | Some pdf => setSelectedPages (allPages pdf) p
  end.

Definition handleDeselectAllPages (p : State) : State := setSelectedPages ∅ p.

(** Lines 224-225. *)
Definition handleZoomIn (p : State) : State :=
  setPdfZoom (fun z => Math_min (SFadd prec emax z float_0_25) float_3) p.

Definition handleZoomOut (p : State) : State :=
  setPdfZoom (fun z => Math_max (SFsub prec emax z float_0_25) float_0_5) p.

(** The arrows of the viewer (lines 508-509), each shown under its
    condition. *)
Definition previousPage (p : State) : State :=
  if bool_decide (1 < currentPage p) then setCurrentPage (fun n => n - 1) p else p.

Definition nextPage (p : State) : State :=
  match DocumentFile.pdfDoc (documentFile p) with
  | Some pdf =>
      if bool_decide (currentPage p < PdfDocument.numPages pdf)
      then setCurrentPage (fun n => n + 1) p else p
  | None => p
  end.

(** *** The recognition of the selected pages (lines 227-253) *)

(** [performOcr], from the reply to its request on. *)
Definition performOcr (reply : option string) : string + thrown :=
  match reply with
  | Some text => inl text
  | None => inr (ErrorObject "Failed to perform OCR with Gemini API.")
  end.

(** What reads a page: the rendering of the page to the data of an image
    ([None] when the rendering library throws), and the provider's reply to
    the n-th recognition request for such data. *)
Record PageReader : Type := mkReader {
  renderPage : nat -> option string;
  ocrReply : nat -> string -> option string
}.

(** [Array.from(selectedPages).sort((a, b) => a - b)] *)
Definition sortedPages (selected : gset nat) : list nat :=
  merge_sort Nat.le (elements selected).

Definition pageSection (pageNum : nat) (text : string) : string :=
  "--- Page " +:+ pretty pageNum +:+ " ---" +:+ nl +:+ text.

(** The body of the [try] for a page: its text, or [None] when the
    rendering or the recognition throws. *)
Definition readPage (reader : PageReader) (n : nat) (pageNum : nat) : option string :=
  match renderPage reader pageNum with
  | None => None
  | Some base64Data =>
      match performOcr (ocrReply reader n base64Data) with
      | inl ocrText => Some ocrText
      | inr _ => None
      end
  end.

(** The loop of lines 233-250: [pageTexts] for the pages still to read; the
    failure branch ends the loop. *)
Fixpoint pageTextsFrom (reader : PageReader) (n : nat) (pages : list nat) : list string :=
  match pages with
  | [] => []
  | pageNum :: pages' =>
      match readPage reader n pageNum with
      | Some ocrText => pageSection pageNum ocrText :: pageTextsFrom reader (S n) pages'
      | None => [pageSection pageNum "[OCR Failed]"]
      end
  end.

Definition handleOcr (reader : PageReader) (p : State) : State :=
  match DocumentFile.pdfDoc (documentFile p) with
  | None => p
  | Some _ =>
      if bool_decide (size (selectedPages p) = 0) then p
      else
        let pageTexts := pageTextsFrom reader 0 (sortedPages (selectedPages p)) in
        setIsOcrProcessing false
          (setDocumentFile
             (fun prev => DocumentFile.make (DocumentFile.id prev) (DocumentFile.name prev)
                            DocumentType.TXT (join (nl +:+ nl) pageTexts)
                            (DocumentFile.file prev) None)
             (setIsOcrProcessing true p))
  end.

(** *** The task store (lines 255-270) *)

(** A key of [Agent] with a value of its type. *)
Inductive AgentField : Type :=
| IdField (value : string)
| NameField (value : string)
| PromptField (value : string)
| StatusField (value : AgentStatus)
| ModelField (value : string)
| OutputField (value : option string)
| ErrorField (value : option string)
| OutputJsonField (value : Js.value).

(** [{ ...agent, [field]: value }] *)
Definition setField (field : AgentField) (a : Agent) : Agent :=
  match field with
  | IdField v => mkAgent v (name a) (prompt a) (status a) (model a) (output a) (error a) (outputJson a)
  | NameField v => mkAgent (id a) v (prompt a) (status a) (model a) (output a) (error a) (outputJson a)
  | PromptField v => mkAgent (id a) (name a) v (status a) (model a) (output a) (error a) (outputJson a)
  | StatusField v => mkAgent (id a) (name a) (prompt a) v (model a) (output a) (error a) (outputJson a)
  | ModelField v => mkAgent (id a) (name a) (prompt a) (status a) v (output a) (error a) (outputJson a)
  | OutputField v => mkAgent (id a) (name a) (prompt a) (status a) (model a) v (error a) (outputJson a)
  | ErrorField v => mkAgent (id a) (name a) (prompt a) (status a) (model a) (output a) v (outputJson a)
  | OutputJsonField v => mkAgent (id a) (name a) (prompt a) (status a) (model a) (output a) (error a) v
  end.

Definition updateAgent (agentId : string) (field : AgentField) (st : App.State) : App.State :=
  setAgents (mapById agentId (setField field)) st.

(** A template of the catalog: a name and a prompt. *)
Record Template : Type := mkTemplate { templateName : string; templatePrompt : string }.

Definition newAgent (template : Template) (now : nat) : Agent :=
  mkAgent ("agent-" +:+ pretty now) (templateName template) (templatePrompt template) Pending
    firstModel None None Null.

Definition handleAgentTemplateAdd (template : Template) (now : nat) (st : App.State)
  : App.State :=
  setAgents (fun prev => prev ++ [newAgent template now]) st.

Definition deleteAgent (agentId : string) (st : App.State) : App.State :=
  setAgents (filter (fun a => id a <> agentId)) st.

(** *** The keywords (lines 348-356) *)

Definition addKeywordHandler (now : nat) (p : State) : State :=
  if isBlank (newText (newKeyword p)) then p
  else
    setNewKeyword (fun prev => mkNewKeyword EmptyString (newColor prev))
      (setKeywords
         (fun prev => prev ++ [Keyword.make ("kw-" +:+ pretty now) (newText (newKeyword p))
                                 (newColor (newKeyword p))])
         p).

Definition removeKeyword (keywordId : string) (p : State) : State :=
  setKeywords (filter (fun kw => Keyword.id kw <> keywordId)) p.

(** *** The run on the page *)

(** [runWorkflow] as the page calls it: on the content of its document. *)
Definition runWorkflowOnPage (provider : Provider) (p : State) : Outcome * State :=
  let r := runWorkflow provider (DocumentFile.content (documentFile p)) (workflow p) in
  (r.1, withWorkflow (fun _ => r.2) p).

(** The click on the Run control ([onClick={runWorkflow}]) up to the first
    await of the run it starts, and the continuation of a run when the call
    it awaits settles, on the page as it stands then. *)
Definition startOnPage (p : State) : Run * State :=
  let r := start (DocumentFile.content (documentFile p)) (workflow p) in
  (r.1, withWorkflow (fun _ => r.2) p).

Definition resumeOnPage (run : Run) (reply : option string) (p : State) : Run * State :=
  let r := resume run reply (workflow p) in
  (r.1, withWorkflow (fun _ => r.2) p).

(** The Run control as the page shows it. *)
Definition runControlDisabled (p : State) : bool :=
  runDisabled (DocumentFile.content (documentFile p)) (workflow p).

(** The viewer, with the recognition control, is shown when
    [documentFile.type === DocumentType.PDF && documentFile.pdfDoc]
    (line 482). *)
Definition viewerShown (p : State) : bool :=
  bool_decide (DocumentFile.type (documentFile p) = DocumentType.PDF)
  && bool_decide (is_Some (DocumentFile.pdfDoc (documentFile p))).

(** *** Vocabulary of the properties of the page *)

(** What defines a task, as against what a run writes on it. *)
Definition taskDefinition (a : Agent) : string * string * string * string :=
  (id a, name a, prompt a, model a).

(** A task list as the data model has it: distinct ids, and every task in
    keeping with its status. *)
Definition wellFormed (st : App.State) : Prop :=
  NoDup (id <$> agents st) /\ Forall Reading.taskInvariant (agents st).

(** What the page does to the task list: a template is added (at a time
    whose id is not taken), a task is deleted, a prompt or a model is edited
    (the two fields the page edits), the workflow is run. *)
Inductive storeStep : App.State -> App.State -> Prop :=
| StepAdd template now st :
    "agent-" +:+ pretty now ∉ (id <$> agents st) ->
    storeStep st (handleAgentTemplateAdd template now st)
| StepDelete agentId st : storeStep st (deleteAgent agentId st)
| StepPrompt agentId value st : storeStep st (updateAgent agentId (PromptField value) st)
| StepModel agentId value st : storeStep st (updateAgent agentId (ModelField value) st)
| StepRun provider content st : storeStep st (runWorkflow provider content st).2.

(** The zoom levels: 0.5, 0.75, ..., 3.0. *)
Definition zoomLevels : list spec_float :=
  [ S754_finite false 4503599627370496 (-53);
    S754_finite false 6755399441055744 (-53);
    S754_finite false 4503599627370496 (-52);
    S754_finite false 5629499534213120 (-52);
    S754_finite false 6755399441055744 (-52);
    S754_finite false 7881299347898368 (-52);
    S754_finite false 4503599627370496 (-51);
    S754_finite false 5066549580791808 (-51);
    S754_finite false 5629499534213120 (-51);
    S754_finite false 6192449487634432 (-51);
    S754_finite false 6755399441055744 (-51) ].

(** A load that does not end with a document: the rendering library is not
    loaded yet, the reading or the opening of the PDF fails, or the text of
    the file cannot be read. *)
Definition loadFails (file : File.t) (pdfRead : PdfRead) (textRead : option string)
    (p : State) : bool :=
  if bool_decide (File.type file = "application/pdf") then
    negb (isPdfLibReady p) || match pdfRead with PdfOpened _ => false | _ => true end
  else match textRead with Some _ => false | None => true end.

(** Every keyword has a text that is not blank. *)
Definition keywordsOk (p : State) : Prop :=
  Forall (fun kw => isBlank (Keyword.text kw) = false) (keywords p).

End WithConstants.

End Page.

(** ** Concrete inputs for the examples of the page *)

Module PageDemo.
Import Js Types GeminiService App Text Page Demo.

#[export] Instance demoConstants : Constants :=
  {| noDocument := "No document loaded"; firstModel := "gemini-2.5-flash" |}.

Definition report : File.t := File.make "report.pdf" "application/pdf" 2048.
Definition notes : File.t := File.make "notes.txt" "text/plain" 64.
Definition threePages : PdfDocument.t := PdfDocument.make 3.

(** The page as it starts, with the rendering library loaded. *)
Definition freshPage : Page.State :=
  mkPage (idle []) initialDocument EmptyString [] (mkNewKeyword EmptyString "#f87171")
    false false true ∅ 1 float_1 [].

(** The page with the three-page PDF open and every page selected. *)
Definition pdfPage : Page.State :=
  handleFileChange (Some report) (PdfOpened threePages) None freshPage.

(** A reader that renders every page and recognises all but the n-th
    request. *)
Definition readerFailingAt (k : nat) : PageReader :=
  mkReader (fun pageNum => Some ("image-" +:+ pretty pageNum))
    (fun n data => if bool_decide (n = k) then None else Some ("text of " +:+ data)).

Definition summarizer : Template := mkTemplate "Summarizer" "Summarize.".

(** The page with a text document and one task, and a text typed into the
    paste box. *)
Definition pastingPage : Page.State :=
  mkPage (idle [summaryTask])
    (DocumentFile.make "notes.txt" "notes.txt" DocumentType.TXT document (Some notes) None)
    "A newer text." [] (mkNewKeyword EmptyString "#f87171") false false true ∅ 1 float_1 [].

End PageDemo.

(** ** Strings and the fenced block *)

Module StringFacts.
Import Js Reading.

Lemma str_app_nil (b : string) : EmptyString +:+ b = b.
Proof. reflexivity. Qed.

Lemma str_app_cons (c : ascii) (a b : string) : String c a +:+ b = String c (a +:+ b).
Proof. reflexivity. Qed.

Lemma str_app_assoc (a b c : string) : (a +:+ b) +:+ c = a +:+ b +:+ c.
Proof. induction a as [|x a IH]; rewrite ?str_app_cons; [reflexivity | by rewrite IH]. Qed.

Lemma str_app_length (a b : string) :
  String.length (a +:+ b) = String.length a + String.length b.
Proof. induction a as [|x a IH]; rewrite ?str_app_cons; simpl; [reflexivity | by rewrite IH]. Qed.

(** Two splittings of one string, the first cut not after the second. *)
Lemma str_app_split (x y a b : string) :
  x +:+ y = a +:+ b -> String.length x <= String.length a ->
  exists m, a = x +:+ m /\ y = m +:+ b.
Proof.
  revert a. induction x as [|c x IH]; intros a Heq Hlen; simpl in *.
  - exists a. by split.
  - destruct a as [|c' a]; simpl in *; [lia|].
    injection Heq as -> Heq. destruct (IH a Heq) as (m & -> & ->); [lia|].
    by exists m.
Qed.

Lemma stripPrefix_app (p r : string) : stripPrefix p (p +:+ r) = Some r.
Proof.
  induction p as [|c p IH]; simpl; [reflexivity|].
  by rewrite bool_decide_eq_true_2.
Qed.

Lemma stripPrefix_Some (p s r : string) : stripPrefix p s = Some r -> s = p +:+ r.
Proof.
  revert s. induction p as [|c p IH]; intros s; simpl.
  - by intros [= ->].
  - destruct s as [|c' s]; [done|]. case_bool_decide; [|done].
    subst c'. intros H. by rewrite (IH _ H).
Qed.

(** No occurrence at the very start, when the first one is further on. *)
Lemma stripPrefix_before_first (pat before after : string) (c : ascii) :
  firstOccurrence pat (String c before) after ->
  stripPrefix pat (String c before +:+ pat +:+ after) = None.
Proof.
  intros Hfirst.
  destruct (stripPrefix pat _) as [r|] eqn:E; [|reflexivity].
  apply stripPrefix_Some in E.
  specialize (Hfirst EmptyString r E). simpl in Hfirst. lia.
Qed.

Lemma firstOccurrence_tail (pat before after : string) (c : ascii) :
  firstOccurrence pat (String c before) after -> firstOccurrence pat before after.
Proof.
  intros Hfirst a b Heq.
  assert (H := Hfirst (String c a) b). rewrite !str_app_cons, Heq in H.
  specialize (H eq_refl). simpl in H. lia.
Qed.

Lemma lazyUntil_unfold (close s : string) :
  lazyUntil close s =
  match stripPrefix close s with
  | Some _ => Some EmptyString
  | None =>
      match s with
      | EmptyString => None
      | String c s' => String c <$> lazyUntil close s'
      end
  end.
Proof. by destruct s. Qed.

Lemma jsonMatch_unfold (s : string) :
  jsonMatch s =
  match matchHere s with
  | Some g => Some g
  | None =>
      match s with
      | EmptyString => None
      | String _ s' => jsonMatch s'
      end
  end.
Proof. by destruct s. Qed.

(** The lazy group stops at the first closing fence. *)
Lemma lazyUntil_first (close content after : string) :
  firstOccurrence close content after ->
  lazyUntil close (content +:+ close +:+ after) = Some content.
Proof.
  induction content as [|c content IH]; intros Hfirst; rewrite lazyUntil_unfold.
  - by rewrite str_app_nil, stripPrefix_app.
  - rewrite stripPrefix_before_first by done. rewrite str_app_cons.
    by rewrite IH by (by eapply firstOccurrence_tail).
Qed.

(** What the lazy group matched is followed by the closing fence, and by no
    earlier one. *)
Lemma lazyUntil_Some (close s g : string) :
  lazyUntil close s = Some g ->
  exists after, s = g +:+ close +:+ after /\ firstOccurrence close g after.
Proof.
  revert g. induction s as [|c s IH]; intros g; rewrite lazyUntil_unfold.
  - destruct (stripPrefix close EmptyString) as [r|] eqn:E; [|done].
    intros [= <-]. exists r. split; [by apply stripPrefix_Some in E|].
    intros a b _. simpl. lia.
  - destruct (stripPrefix close (String c s)) as [r|] eqn:E.
    + intros [= <-]. exists r. split; [by apply stripPrefix_Some in E|].
      intros a b _. simpl. lia.
    + simpl. destruct (lazyUntil close s) as [g'|] eqn:E'; [|done].
      intros [= <-]. destruct (IH g' eq_refl) as (after & -> & Hfirst).
      exists after. split; [done|].
      intros a b Heq. rewrite str_app_cons in Heq. destruct a as [|c' a].
      * rewrite str_app_nil in Heq. rewrite Heq, stripPrefix_app in E. done.
      * rewrite str_app_cons in Heq. injection Heq as -> Heq. simpl.
        specialize (Hfirst a b Heq). lia.
Qed.

(** A closing fence somewhere makes the lazy group match. *)
Lemma lazyUntil_is_Some (close x y : string) : is_Some (lazyUntil close (x +:+ close +:+ y)).
Proof.
  induction x as [|c x IH]; rewrite lazyUntil_unfold.
  - by rewrite str_app_nil, stripPrefix_app.
  - destruct (stripPrefix close _); [done|]. rewrite str_app_cons.
    destruct IH as [g ->]. done.
Qed.

Lemma matchHere_Some (s g : string) :
  matchHere s = Some g ->
  exists after, s = fenceOpen +:+ g +:+ fenceClose +:+ after
                /\ firstOccurrence fenceClose g after.
Proof.
  unfold matchHere. destruct (stripPrefix fenceOpen s) as [r|] eqn:E; [|done].
  simpl. intros Hg. apply stripPrefix_Some in E as ->.
  destruct (lazyUntil_Some _ _ _ Hg) as (after & -> & Hfirst). by exists after.
Qed.

(** The leftmost match is the first opening fence and the first closing
    fence after it. *)
Lemma jsonMatch_first (before content after : string) :
  firstOccurrence fenceOpen before (content +:+ fenceClose +:+ after) ->
  firstOccurrence fenceClose content after ->
  jsonMatch (before +:+ fenceOpen +:+ content +:+ fenceClose +:+ after) = Some content.
Proof.
  intros Hopen Hclose.
  induction before as [|c before IH]; rewrite jsonMatch_unfold.
  - unfold matchHere. rewrite str_app_nil, (stripPrefix_app fenceOpen).
    cbn [mbind option_bind]. by rewrite lazyUntil_first.
  - unfold matchHere. rewrite stripPrefix_before_first by done.
    cbn [mbind option_bind]. rewrite str_app_cons.
    apply IH. by eapply firstOccurrence_tail.
Qed.

Lemma hasFencedBlock_tail (c : ascii) (s : string) :
  hasFencedBlock s -> hasFencedBlock (String c s).
Proof.
  intros (before & content & after & ->). by exists (String c before), content, after.
Qed.

Lemma jsonMatch_None (s : string) : ~ hasFencedBlock s -> jsonMatch s = None.
Proof.
  induction s as [|c s IH]; intros Hno; rewrite jsonMatch_unfold.
  - destruct (matchHere EmptyString) as [g|] eqn:E; [|done].
    destruct (matchHere_Some _ _ E) as (after & Heq & _). done.
  - destruct (matchHere (String c s)) as [g|] eqn:E.
    + destruct (matchHere_Some _ _ E) as (after & Heq & _).
      destruct Hno. by exists EmptyString, g, after.
    + apply IH. intros H. by apply Hno, hasFencedBlock_tail.
Qed.

(** A match is a fenced block, the first of the text. *)
Lemma jsonMatch_Some (s g : string) :
  jsonMatch s = Some g ->
  exists before after,
    s = before +:+ fenceOpen +:+ g +:+ fenceClose +:+ after
    /\ firstOccurrence fenceOpen before (g +:+ fenceClose +:+ after)
    /\ firstOccurrence fenceClose g after.
Proof.
  induction s as [|c s IH]; rewrite jsonMatch_unfold.
  - destruct (matchHere EmptyString) as [g'|] eqn:E; [|done].
    destruct (matchHere_Some _ _ E) as (after & Heq & _). done.
  - destruct (matchHere (String c s)) as [g'|] eqn:E.
    + intros [= ->]. destruct (matchHere_Some _ _ E) as (after & Heq & Hfirst).
      exists EmptyString, after. split_and!; [done| |done].
      intros a b _. simpl. lia.
    + intros Hg. destruct (IH Hg) as (before & after & -> & Hopen & Hclose).
      exists (String c before), after. split_and!; [done| |done].
      intros a b Heq. destruct a as [|c' a];
        [|rewrite !str_app_cons in Heq; injection Heq as -> Heq;
          specialize (Hopen a b Heq); simpl; lia].
      exfalso. rewrite str_app_nil in Heq.
      assert (Hs := Heq). rewrite str_app_cons in Hs.
      unfold matchHere in E. rewrite Hs, (stripPrefix_app fenceOpen) in E.
      cbn [mbind option_bind] in E.
      (* the closing fence of the block lies in [b] *)
      assert (Hlen : String.length fenceOpen <= String.length (String c before +:+ fenceOpen)).
      { rewrite str_app_length. lia. }
      rewrite <- (str_app_assoc (String c before)) in Heq.
      symmetry in Heq.
      destruct (str_app_split _ _ _ _ Heq Hlen) as (m & _ & ->).
      rewrite <- str_app_assoc in E.
      destruct (lazyUntil_is_Some fenceClose (m +:+ g) after) as [g' Hg'].
      rewrite Hg' in E. done.
Qed.

Lemma hasFencedBlock_jsonMatch (s : string) : hasFencedBlock s -> is_Some (jsonMatch s).
Proof.
  intros Hblock. destruct (jsonMatch s) as [g|] eqn:E; [done|].
  exfalso. revert Hblock E. induction s as [|c s IH]; intros Hblock; rewrite jsonMatch_unfold.
  - destruct Hblock as (before & content & after & Heq).
    destruct before; discriminate.
  - destruct (matchHere (String c s)) eqn:E; [done|].
    intros Hs. destruct Hblock as (before & content & after & Heq).
    destruct before as [|c' before].
    + unfold matchHere in E. rewrite str_app_nil in Heq.
      rewrite Heq, (stripPrefix_app fenceOpen) in E. cbn [mbind option_bind] in E.
      destruct (lazyUntil_is_Some fenceClose content after) as [g' Hg'].
      rewrite Hg' in E. done.
    + rewrite str_app_cons in Heq. injection Heq as -> ->.
      apply IH; [|done]. by exists before, content, after.
Qed.

End StringFacts.

(** ** The loop *)

Module RunFacts.
Import Js Types GeminiService App Reading.

#[global] Arguments fullPrompt : simpl never.
#[global] Arguments followUpPrompt : simpl never.
#[global] Arguments followUpEntry : simpl never.
#[global] Arguments failureMessage : simpl never.
#[global] Arguments extractOutputJson : simpl never.

Section WithHost.
Context {host : Host}.

(** *** Updates by id *)

Lemma mapById_ids (i : string) (f : Agent -> Agent) (l : list Agent) :
  (forall a, id (f a) = id a) -> id <$> mapById i f l = id <$> l.
Proof.
  intros Hf. unfold mapById. rewrite <- list_fmap_compose.
  apply list_fmap_ext. intros _ a _. simpl. by case_bool_decide.
Qed.

Lemma mapById_length (i : string) (f : Agent -> Agent) (l : list Agent) :
  length (mapById i f l) = length l.
Proof. unfold mapById. by rewrite length_fmap. Qed.

(** An update after one that left the ids alone and that it overrides. *)
Lemma mapById_twice (i : string) (f g : Agent -> Agent) (l : list Agent) :
  (forall a, id (g a) = id a) -> (forall a, f (g a) = f a) ->
  mapById i f (mapById i g l) = mapById i f l.
Proof.
  intros Hg Hfg. unfold mapById. rewrite <- list_fmap_compose.
  apply list_fmap_ext. intros _ a _. simpl.
  destruct (decide (id a = i)) as [Ha|Ha].
  - rewrite (bool_decide_eq_true_2 (id a = i)) by done.
    rewrite bool_decide_eq_true_2 by (by rewrite Hg). apply Hfg.
  - rewrite (bool_decide_eq_false_2 (id a = i)) by done.
    by rewrite bool_decide_eq_false_2 by done.
Qed.

Lemma mapById_fresh (i : string) (f : Agent -> Agent) (l : list Agent) :
  i ∉ (id <$> l) -> mapById i f l = l.
Proof.
  intros Hi. unfold mapById. rewrite <- (list_fmap_id l) at 2.
  apply list_fmap_ext. intros k a Ha. simpl.
  rewrite bool_decide_eq_false_2; [done|].
  intros <-. apply Hi, list_elem_of_fmap. exists a. split; [done|].
  by eapply list_elem_of_lookup_2.
Qed.

(** With distinct ids the update reaches the one position of its agent. *)
Lemma mapById_at (i : string) (f : Agent -> Agent) (pre rest : list Agent) (a : Agent) :
  id a = i -> i ∉ (id <$> pre) -> i ∉ (id <$> rest) ->
  mapById i f (pre ++ a :: rest) = pre ++ f a :: rest.
Proof.
  intros Ha Hdone Hrest.
  assert (Happ : forall l k, mapById i f (l ++ k) = mapById i f l ++ mapById i f k)
    by (intros; apply fmap_app).
  rewrite Happ, (mapById_fresh _ _ pre) by done.
  change (a :: rest) with ([a] ++ rest).
  rewrite Happ, (mapById_fresh _ _ rest) by done.
  unfold mapById. simpl. by rewrite bool_decide_eq_true_2.
Qed.

Lemma NoDup_ids_middle (pre rest : list Agent) (a : Agent) :
  NoDup (id <$> (pre ++ a :: rest)) -> (id a ∉ (id <$> pre)) /\ (id a ∉ (id <$> rest)).
Proof.
  rewrite fmap_app, fmap_cons. intros (_ & Hdisj & Hrest)%NoDup_app.
  apply NoDup_cons in Hrest as [Hrest _]. split; [|done].
  intros Hin. apply (Hdisj _ Hin). left.
Qed.

(** *** The loop, position by position *)

Lemma loop_by_position (provider : Provider) (rest : list Agent) :
  forall (pre : list Agent) (L : Locals) (st : State),
    NoDup (id <$> (pre ++ rest)) ->
    finalAgentsState L = pre ++ rest ->
    agents st = pre ++ rest ->
    let r := loop provider rest L st in
    finalAgentsState r.1
    = pre ++ settledFrom provider (documentContent L) (requests L) rest
    /\ agents r.2 = finalAgentsState r.1
    /\ trace r.2
       = trace st ++ eventsFrom provider (documentContent L) pre (requests L) rest
    /\ agentOutputsForFollowup r.1
       = agentOutputsForFollowup L
         ++ outputsFrom provider (documentContent L) (requests L) rest
    /\ documentContent r.1 = documentContent L
    /\ isProcessing r.2 = isProcessing st
    /\ analysisResult r.2 = analysisResult st
    /\ followUpQuestions r.2 = followUpQuestions st.
Proof.
  induction rest as [|agent rest IH]; intros pre L st Hnodup HL Hst.
  { simpl. rewrite !app_nil_r in *. by rewrite Hst, HL. }
  destruct (NoDup_ids_middle _ _ _ Hnodup) as [Hdone Hrest].
  cbn [loop settledFrom eventsFrom outputsFrom]. unfold agentReply.
  destruct (provider (requests L) (model agent) (fullPrompt agent (documentContent L)))
    as [out|] eqn:Hreply; cbn [runAgent].
  - set (agent' := successfulUpdate out (extractOutputJson out) agent).
    assert (Hfinal : mapById (id agent) (successfulUpdate out (extractOutputJson out))
                       (pre ++ agent :: rest) = (pre ++ [agent']) ++ rest).
    { rewrite mapById_at by done. by rewrite <- app_assoc. }
    specialize (IH (pre ++ [agent']) (fulfilledLocals agent out L)
                  (fulfilledState agent out (beginIteration agent L st))).
    cbn zeta in IH. destruct IH as (IH1 & IH2 & IH3 & IH4 & IH5 & IH6 & IH7 & IH8).
    + rewrite <- app_assoc. simpl. rewrite fmap_app, fmap_cons in *. exact Hnodup.
    + simpl. by rewrite HL.
    + simpl. rewrite Hst, mapById_twice by done. done.
    + cbn zeta. rewrite IH2, IH1, IH3, IH4, IH5, IH6, IH7, IH8. simpl.
      rewrite Hst, (mapById_at _ _ pre rest agent) by done.
      rewrite (mapById_at _ _ pre rest (markRunning agent)) by done.
      rewrite <- !app_assoc. simpl. split_and!; reflexivity.
  - cbn zeta. simpl. rewrite HL, Hst, !(mapById_at _ _ pre rest agent) by done.
    rewrite (mapById_at _ _ pre rest (markRunning agent)) by done.
    rewrite <- !app_assoc, app_nil_r. simpl. split_and!; reflexivity.
Qed.

(** *** The tasks and the events, position by position *)

Lemma pristine_reset (a : Agent) : pristine (resetAgent a).
Proof. by repeat split. Qed.

Lemma pristine_agentsToRun (st : State) : Forall pristine (agentsToRun st).
Proof. apply Forall_fmap, Forall_forall. intros a _. apply pristine_reset. Qed.

Lemma ids_agentsToRun (st : State) : id <$> agentsToRun st = id <$> agents st.
Proof. unfold agentsToRun. rewrite <- list_fmap_compose. by apply list_fmap_ext. Qed.

Lemma pristine_invariant (a : Agent) : pristine a -> taskInvariant a.
Proof. intros (Hs & Ho & He & Hj). unfold taskInvariant. by rewrite Hs. Qed.

Lemma running_invariant (a : Agent) : pristine a -> taskInvariant (markRunning a).
Proof. by intros (Hs & Ho & He & Hj). Qed.

Lemma success_invariant (out : string) (json : value) (a : Agent) :
  taskInvariant (successfulUpdate out json a).
Proof. by split. Qed.

Lemma error_invariant (message : string) (a : Agent) :
  pristine a -> taskInvariant (errorUpdate message a).
Proof. intros (Hs & Ho & He & Hj). by split. Qed.

Lemma settledFrom_invariant (provider : Provider) (content : string) (rest : list Agent) :
  forall n, Forall pristine rest ->
    Forall taskInvariant (settledFrom provider content n rest).
Proof.
  induction rest as [|agent rest IH]; intros n Hrest; [constructor|].
  apply Forall_cons in Hrest as [Hagent Hrest]. cbn [settledFrom].
  destruct (provider n _ _) as [out|].
  - constructor; [apply success_invariant | by apply IH].
  - constructor; [by apply error_invariant |].
    eapply Forall_impl; [exact Hrest | apply pristine_invariant].
Qed.

Lemma eventsFrom_snapshotsOk (provider : Provider) (content : string) (rest : list Agent) :
  forall pre n, Forall taskInvariant pre -> Forall pristine rest ->
    snapshotsOk (eventsFrom provider content pre n rest).
Proof.
  induction rest as [|agent rest IH]; intros pre n Hdone Hrest; [constructor|].
  apply Forall_cons in Hrest as [Hagent Hrest].
  assert (Hrest' : Forall taskInvariant rest)
    by (eapply Forall_impl; [exact Hrest | apply pristine_invariant]).
  cbn [eventsFrom]. constructor; [|constructor; [done|]].
  { apply Forall_app. split; [done|]. constructor; [by apply running_invariant | done]. }
  destruct (provider n _ _) as [out|].
  - constructor.
    + apply Forall_app. split; [done|]. constructor; [apply success_invariant | done].
    + apply IH; [|done]. apply Forall_app. split; [done|].
      constructor; [apply success_invariant | constructor].
  - constructor; [|constructor].
    apply Forall_app. split; [done|]. constructor; [by apply error_invariant | done].
Qed.

(** The first failure: the tasks before it are settled, the failing one
    holds the message, and the tasks after it are as they were. *)
Lemma settledFrom_failure (provider : Provider) (content : string) (rest : list Agent) :
  forall n K agentK,
    rest !! K = Some agentK ->
    (forall j a, j < K -> rest !! j = Some a ->
       is_Some (provider (n + j) (model a) (fullPrompt a content))) ->
    provider (n + K) (model agentK) (fullPrompt agentK content) = None ->
    exists pre,
      length pre = K
      /\ settledFrom provider content n rest
         = pre ++ errorUpdate (failureMessage agentK) agentK :: drop (S K) rest.
Proof.
  induction rest as [|agent rest IH]; intros n K agentK HK Hbefore Hfail; [done|].
  cbn [settledFrom]. destruct K as [|K].
  - injection HK as ->. rewrite Nat.add_0_r in Hfail. rewrite Hfail.
    by exists [].
  - destruct (Hbefore 0 agent) as [out Hout]; [lia | done |].
    rewrite Nat.add_0_r in Hout. rewrite Hout.
    destruct (IH (S n) K agentK) as (pre & Hlen & ->); [done | |  |].
    + intros j a Hj Ha. replace (S n + j) with (n + S j) by lia.
      apply Hbefore; [lia | done].
    + by replace (S n + K) with (n + S K) by lia.
    + exists (successfulUpdate out (extractOutputJson out) agent :: pre).
      split; [simpl; by rewrite Hlen | done].
Qed.

(** Up to the first failure [runAgent] is called once per task, in order,
    and not after it. *)
Lemma eventsFrom_failure_calls (provider : Provider) (content : string) (rest : list Agent) :
  forall pre n K agentK,
    rest !! K = Some agentK ->
    (forall j a, j < K -> rest !! j = Some a ->
       is_Some (provider (n + j) (model a) (fullPrompt a content))) ->
    provider (n + K) (model agentK) (fullPrompt agentK content) = None ->
    runAgentCalls (eventsFrom provider content pre n rest) = take (S K) rest.
Proof.
  induction rest as [|agent rest IH]; intros pre n K agentK HK Hbefore Hfail; [done|].
  cbn [eventsFrom]. destruct K as [|K].
  - injection HK as ->. rewrite Nat.add_0_r in Hfail. by rewrite Hfail.
  - destruct (Hbefore 0 agent) as [out Hout]; [lia | done |].
    rewrite Nat.add_0_r in Hout. rewrite Hout.
    change (take (S (S K)) (agent :: rest)) with (agent :: take (S K) rest).
    rewrite <- (IH (pre ++ [successfulUpdate out (extractOutputJson out) agent]) (S n) K agentK);
      [done | done | | ].
    + intros j a Hj Ha. replace (S n + j) with (n + S j) by lia.
      apply Hbefore; [lia | done].
    + by replace (S n + K) with (n + S K) by lia.
Qed.

Lemma successfulAgents_pristine (l : list Agent) :
  Forall pristine l -> successfulAgents l = [].
Proof.
  unfold successfulAgents. induction 1 as [|a l (Hs & _) _ IH]; [done|].
  rewrite filter_cons_False; [done|]. by rewrite Hs.
Qed.

(** The follow-up entries are as many as the tasks that succeeded. *)
Lemma outputsFrom_successes (provider : Provider) (content : string) (rest : list Agent) :
  forall n, Forall pristine rest ->
    length (outputsFrom provider content n rest)
    = length (successfulAgents (settledFrom provider content n rest)).
Proof.
  induction rest as [|agent rest IH]; intros n Hrest; [done|].
  apply Forall_cons in Hrest as [Hagent Hrest]. cbn [outputsFrom settledFrom].
  destruct (provider n _ _) as [out|]; unfold successfulAgents.
  - rewrite filter_cons_True by done. simpl. by rewrite IH.
  - rewrite filter_cons_False by done.
    fold (successfulAgents rest). by rewrite successfulAgents_pristine.
Qed.

(** *** What the aggregation and the follow-up leave alone *)

Lemma aggregate_frame (final : list Agent) (st st' : State) :
  aggregate final st = Some st' ->
  agents st' = agents st /\ trace st' = trace st
  /\ isProcessing st' = isProcessing st /\ followUpQuestions st' = followUpQuestions st.
Proof.
  unfold aggregate. destruct (successfulAgents final); [by intros [= <-]|].
  destruct (newAnalysis _) as [r|]; [|done]. simpl. intros [= <-].
  by destruct (worthShowing r).
Qed.

Lemma followUp_agents (provider : Provider) (L : Locals) (st : State) :
  agents (followUp provider L st) = agents st.
Proof.
  unfold followUp, followUpSettled.
  destruct (agentOutputsForFollowup L); [done|]. by destruct (followUpReply provider L).
Qed.

Lemma followUp_trace (provider : Provider) (L : Locals) (st : State) :
  trace (followUp provider L st)
  = trace st ++
    match agentOutputsForFollowup L with
    | [] => []
    | _ :: _ => [CallGenerateFollowUpQuestions (documentContent L) (followUpOutputs L)]
    end.
Proof.
  unfold followUp, followUpSettled.
  destruct (agentOutputsForFollowup L); [by rewrite app_nil_r|].
  by destruct (followUpReply provider L).
Qed.

(** *** The loop when every call succeeds, whatever the ids *)

Lemma loop_all_succeed (provider : Provider) (rest : list Agent) :
  (forall n m c, is_Some (provider n m c)) ->
  forall (seen : list string) (L : Locals) (st : State),
    agents st = finalAgentsState L ->
    Forall (fun a => id a ∈ seen -> succeeded a) (finalAgentsState L) ->
    let r := loop provider rest L st in
    agents r.2 = finalAgentsState r.1
    /\ id <$> finalAgentsState r.1 = id <$> finalAgentsState L
    /\ Forall (fun a => id a ∈ seen ++ (id <$> rest) -> succeeded a) (finalAgentsState r.1)
    /\ exists events, trace r.2 = trace st ++ events.
Proof.
  intros Hanswers.
  induction rest as [|agent rest IH]; intros seen L st Hst Hseen.
  { simpl. rewrite app_nil_r. split_and!; [done..|]. exists []. by rewrite app_nil_r. }
  cbn [loop]. unfold agentReply.
  destruct (Hanswers (requests L) (model agent) (fullPrompt agent (documentContent L)))
    as [out ->]. cbn [runAgent].
  specialize (IH (seen ++ [id agent]) (fulfilledLocals agent out L)
                (fulfilledState agent out (beginIteration agent L st))).
  cbn zeta in IH. destruct IH as (IH1 & IH2 & IH3 & events & IH4).
  - simpl. rewrite Hst, mapById_twice by done. done.
  - simpl. unfold mapById. apply Forall_fmap.
    eapply Forall_impl; [exact Hseen|]. intros a Ha. simpl.
    case_bool_decide as Hid; [by intros _; repeat split; eauto|].
    intros [Hin|Hin%list_elem_of_singleton]%elem_of_app; [by apply Ha | done].
  - cbn zeta. split_and!; [done | | |].
    + rewrite IH2. simpl. by apply mapById_ids.
    + rewrite fmap_cons. rewrite <- app_assoc in IH3. exact IH3.
    + rewrite IH4. simpl. rewrite <- !app_assoc. eauto.
Qed.

(** *** From the loop to the run *)

Lemma nothingToRun_false (content : string) (st : State) :
  content <> EmptyString -> agents st <> [] -> nothingToRun content st = false.
Proof.
  intros Hcontent Hagents. unfold nothingToRun.
  rewrite bool_decide_eq_false_2 by done. rewrite bool_decide_eq_false_2; [done|].
  by destruct (agents st).
Qed.

(** After the loop the tasks are not written any more, and the one event
    that may follow is the call of the follow-up synthesis. *)
Lemma runWorkflow_after_loop (provider : Provider) (content : string) (st : State) :
  nothingToRun content st = false ->
  let r := runWorkflow provider content st in
  let after := loop provider (agentsToRun st) (initialLocals content st) (resetState st) in
  agents r.2 = agents after.2
  /\ exists tail, trace r.2 = trace after.2 ++ tail
       /\ runAgentCalls tail = [] /\ snapshotsOk tail.
Proof.
  intros Hguard. unfold runWorkflow. rewrite Hguard.
  destruct (loop _ _ _ _) as [L st1]. cbn zeta. cbn [fst snd]. unfold conclude.
  destruct (aggregate (finalAgentsState L) st1) as [st2|] eqn:Haggregate; cbn [fst snd].
  - destruct (aggregate_frame _ _ _ Haggregate) as (Hagents & Htrace & _).
    rewrite followUp_agents, followUp_trace, Hagents, Htrace. split; [done|].
    eexists. split; [done|].
    destruct (agentOutputsForFollowup L); by repeat constructor.
  - split; [done|]. exists []. rewrite app_nil_r. by repeat constructor.
Qed.

(** The run on a task list with distinct ids, position by position. *)
Lemma runWorkflow_by_position (provider : Provider) (content : string) (st : State) :
  nothingToRun content st = false ->
  NoDup (id <$> agents st) ->
  let r := runWorkflow provider content st in
  agents r.2 = settledFrom provider content 0 (agentsToRun st)
  /\ exists tail,
       trace r.2
       = trace st ++ SetAgents (agentsToRun st)
           :: eventsFrom provider content [] 0 (agentsToRun st) ++ tail
       /\ runAgentCalls tail = [] /\ snapshotsOk tail.
Proof.
  intros Hguard Hnodup.
  destruct (runWorkflow_after_loop provider content st Hguard)
    as (Hagents & tail & Htrace & Hcalls & Hsnapshots).
  destruct (loop_by_position provider (agentsToRun st) [] (initialLocals content st)
              (resetState st)) as (H1 & H2 & H3 & _); [|done|done|].
  { simpl. by rewrite ids_agentsToRun. }
  cbn zeta in *. split.
  - by rewrite Hagents, H2, H1.
  - exists tail. split; [|done]. rewrite Htrace, H3. simpl. by rewrite <- !app_assoc.
Qed.

(** *** The reset list, the ids of the published lists, the requests *)

Lemma resetOf_agentsToRun (st : State) : Forall2 resetOf (agents st) (agentsToRun st).
Proof.
  unfold agentsToRun. apply Forall2_fmap_r, Forall_Forall2_diag, Forall_forall.
  intros a _. by repeat split.
Qed.

Lemma settledFrom_ids (provider : Provider) (content : string) (rest : list Agent) :
  forall n, id <$> settledFrom provider content n rest = id <$> rest.
Proof.
  induction rest as [|agent rest IH]; intros n; [done|].
  cbn [settledFrom]. destruct (provider n _ _); [|done].
  rewrite !fmap_cons, IH. done.
Qed.

Lemma eventsFrom_snapshotsKeep (provider : Provider) (content : string) (rest : list Agent) :
  forall pre n,
    snapshotsKeep (id <$> (pre ++ rest)) (eventsFrom provider content pre n rest).
Proof.
  induction rest as [|agent rest IH]; intros pre n; [constructor|].
  cbn [eventsFrom]. constructor; [by rewrite !fmap_app|]. constructor; [done|].
  destruct (provider n _ _) as [out|].
  - constructor; [by rewrite !fmap_app|].
    specialize (IH (pre ++ [successfulUpdate out (extractOutputJson out) agent]) (S n)).
    rewrite <- app_assoc in IH. simpl in IH.
    rewrite !fmap_app, !fmap_cons in *. exact IH.
  - constructor; [by rewrite !fmap_app | constructor].
Qed.

Lemma runAgentCalls_eventsFrom (provider : Provider) (content : string) (rest : list Agent) :
  forall pre pre' n,
    runAgentCalls (eventsFrom provider content pre n rest)
    = runAgentCalls (eventsFrom provider content pre' n rest).
Proof.
  induction rest as [|agent rest IH]; intros pre pre' n; [done|].
  cbn [eventsFrom]. unfold runAgentCalls in *. simpl.
  destruct (provider n _ _); [|done]. simpl. f_equal. apply IH.
Qed.

(** The run has issued one request for each call of [runAgent]. *)
Lemma loop_requests (provider : Provider) (rest : list Agent) :
  forall (pre : list Agent) (L : Locals) (st : State),
    requests (loop provider rest L st).1
    = requests L
      + length (runAgentCalls
                  (eventsFrom provider (documentContent L) pre (requests L) rest)).
Proof.
  induction rest as [|agent rest IH]; intros pre L st; [simpl; lia|].
  cbn [loop eventsFrom]. unfold agentReply.
  destruct (provider (requests L) (model agent) (fullPrompt agent (documentContent L)))
    as [out|]; cbn [runAgent].
  - rewrite (IH (pre ++ [successfulUpdate out (extractOutputJson out) agent])).
    unfold fulfilledLocals. cbn [requests documentContent].
    unfold runAgentCalls. cbn [omap list_omap]. cbn [length]. lia.
  - unfold runAgentCalls. simpl. lia.
Qed.

(** The entries collected for the follow-up are those of the tasks the loop
    left in status Success. *)
Lemma successEntries_pristine (l : list Agent) :
  Forall pristine l -> successEntries l = [].
Proof.
  induction 1 as [|a l [Hs _] _ IH]; [done|].
  unfold successEntries in *. simpl. unfold successEntry at 1. by rewrite Hs.
Qed.

Lemma outputsFrom_entries (provider : Provider) (content : string) (rest : list Agent) :
  forall n, Forall pristine rest ->
    outputsFrom provider content n rest
    = successEntries (settledFrom provider content n rest).
Proof.
  induction rest as [|agent rest IH]; intros n Hpristine; [done|].
  apply Forall_cons in Hpristine as [Hagent Hrest].
  cbn [outputsFrom settledFrom]. destruct (provider n _ _) as [out|].
  - unfold successEntries. simpl. rewrite (IH (S n) Hrest). done.
  - unfold successEntries. simpl.
    fold (successEntries rest). by rewrite successEntries_pristine.
Qed.

(** What [runWorkflow] appends after the loop is at most the record of the
    follow-up call. *)
Lemma runWorkflow_after_loop_tail (provider : Provider) (content : string) (st : State) :
  nothingToRun content st = false ->
  let r := runWorkflow provider content st in
  let after := loop provider (agentsToRun st) (initialLocals content st) (resetState st) in
  exists tail, trace r.2 = trace after.2 ++ tail
    /\ Forall (fun e => exists c o, e = CallGenerateFollowUpQuestions c o) tail.
Proof.
  intros Hguard. unfold runWorkflow. rewrite Hguard.
  destruct (loop _ _ _ _) as [L st1]. cbn zeta. cbn [fst snd]. unfold conclude.
  destruct (aggregate (finalAgentsState L) st1) as [st2|] eqn:Haggregate; cbn [fst snd].
  - destruct (aggregate_frame _ _ _ Haggregate) as (_ & Htrace & _).
    rewrite followUp_trace, Htrace. eexists. split; [done|].
    destruct (agentOutputsForFollowup L); repeat constructor. eauto.
  - exists []. by rewrite app_nil_r.
Qed.

Lemma runWorkflow_ids (provider : Provider) (content : string) (st : State) :
  NoDup (id <$> agents st) ->
  id <$> agents (runWorkflow provider content st).2 = id <$> agents st.
Proof.
  intros Hnodup. destruct (nothingToRun content st) eqn:Hguard.
  - unfold runWorkflow. by rewrite Hguard.
  - destruct (runWorkflow_by_position provider content st Hguard Hnodup) as [-> _].
    by rewrite settledFrom_ids, ids_agentsToRun.
Qed.

Lemma runWorkflow_snapshotsKeep (provider : Provider) (content : string) (st : State) :
  nothingToRun content st = false ->
  NoDup (id <$> agents st) ->
  exists later,
    trace (runWorkflow provider content st).2
    = trace st ++ SetAgents (agentsToRun st) :: later
    /\ snapshotsOk later
    /\ snapshotsKeep (id <$> agents st) later.
Proof.
  intros Hguard Hnodup.
  destruct (runWorkflow_after_loop_tail provider content st Hguard) as (tail & Htrace & Htail).
  destruct (loop_by_position provider (agentsToRun st) [] (initialLocals content st)
              (resetState st)) as (_ & _ & H3 & _); [|done|done|].
  { simpl. by rewrite ids_agentsToRun. }
  cbn zeta in *. simpl in H3.
  exists (eventsFrom provider content [] 0 (agentsToRun st) ++ tail). split_and!.
  - rewrite Htrace, H3. by rewrite <- !app_assoc.
  - apply Forall_app. split; [apply eventsFrom_snapshotsOk; [done | apply pristine_agentsToRun]|].
    eapply Forall_impl; [exact Htail|]. by intros e (c & o & ->).
  - apply Forall_app. split.
    + rewrite <- ids_agentsToRun. apply (eventsFrom_snapshotsKeep provider content _ [] 0).
    + eapply Forall_impl; [exact Htail|]. by intros e (c & o & ->).
Qed.

End WithHost.
End RunFacts.

(** ** The runner *)

Section Runner.
Import Js Types GeminiService App Reading StringFacts RunFacts.
Context {host : Host}.

Lemma runAgentCalls_app (l k : list Event) :
  runAgentCalls (l ++ k) = runAgentCalls l ++ runAgentCalls k.
Proof. apply omap_app. Qed.

(** C3: with an empty document or an empty task list [runWorkflow] returns
    at once: the state is the one it was called in (no task changed, nothing
    published, no service called, analysis and follow-up untouched) and the
    promise is resolved, not rejected. *)
Theorem nothing_to_run_is_a_no_op (provider : Provider) (content : string) (st : State) :
  content = EmptyString \/ agents st = [] ->
  runWorkflow provider content st = (Resolved, st).
Proof.
  intros Hnothing. unfold runWorkflow, nothingToRun.
  destruct Hnothing as [-> | ->]; [done|].
  by rewrite orb_true_r.
Qed.

(** C1: when the call for task K fails (the calls before it having
    succeeded, so that the run reaches it), task K ends in Error with the
    message that names it, [runAgent] has been called for the tasks up to K
    and for no other, and every task after K is Pending at the end of the
    run.  The ids of the tasks are distinct, as the data model has them. *)
Theorem failure_stops_the_run (provider : Provider) (content : string) (st : State)
    (K : nat) (agentK : Agent) :
  content <> EmptyString ->
  NoDup (id <$> agents st) ->
  agents st !! K = Some agentK ->
  (forall j a, j < K -> agents st !! j = Some a ->
     is_Some (provider j (model a) (fullPrompt a content))) ->
  provider K (model agentK) (fullPrompt agentK content) = None ->
  let st' := (runWorkflow provider content st).2 in
  (exists a, agents st' !! K = Some a
     /\ id a = id agentK /\ name a = name agentK /\ status a = Error
     /\ error a = Some ("Agent " +:+ dquote +:+ name agentK +:+ dquote
                        +:+ " failed to execute."))
  /\ (forall j a, K < j -> agents st' !! j = Some a -> status a = Pending)
  /\ runAgentCalls (trace st') = runAgentCalls (trace st) ++ take (S K) (agentsToRun st).
Proof.
  intros Hcontent Hnodup HK Hbefore Hfail st'.
  assert (Hguard : nothingToRun content st = false).
  { apply nothingToRun_false; [done|]. intros Hnil. by rewrite Hnil in HK. }
  destruct (runWorkflow_by_position provider content st Hguard Hnodup)
    as (Hagents & tail & Htrace & Hcalls & _).
  fold st' in Hagents, Htrace.
  assert (HK' : agentsToRun st !! K = Some (resetAgent agentK)).
  { unfold agentsToRun. by rewrite list_lookup_fmap, HK. }
  assert (Hbefore' : forall j a, j < K -> agentsToRun st !! j = Some a ->
            is_Some (provider (0 + j) (model a) (fullPrompt a content))).
  { intros j a Hj Ha. unfold agentsToRun in Ha.
    apply list_lookup_fmap_Some in Ha as (a0 & -> & Ha0). by apply (Hbefore j a0). }
  destruct (settledFrom_failure provider content (agentsToRun st) 0 K (resetAgent agentK)
              HK' Hbefore' Hfail) as (pre & Hlen & Hsettled).
  split_and!.
  - exists (errorUpdate (failureMessage (resetAgent agentK)) (resetAgent agentK)).
    split; [|done].
    rewrite Hagents, Hsettled, lookup_app_r by lia.
    by replace (K - length pre) with 0 by lia.
  - intros j a Hj Ha.
    rewrite Hagents, Hsettled, lookup_app_r in Ha by lia.
    destruct (j - length pre) as [|m] eqn:Hm; [lia|]. simpl in Ha.
    rewrite lookup_drop in Ha.
    pose proof (pristine_agentsToRun st) as Hpristine.
    rewrite Forall_lookup in Hpristine. by destruct (Hpristine _ _ Ha).
  - rewrite Htrace, runAgentCalls_app. f_equal.
    change (SetAgents (agentsToRun st) :: ?l) with ([SetAgents (agentsToRun st)] ++ l).
    rewrite !runAgentCalls_app, Hcalls, app_nil_r. simpl.
    by apply (eventsFrom_failure_calls provider content _ [] 0 K (resetAgent agentK)).
Qed.

(** C2: a run begins by resetting every task: the first thing it publishes
    is the task list of the state it was called in, task for task with the
    same id, name, prompt and model, every task Pending with output, error
    and structured output null.  Every task list it publishes afterwards
    lists the same tasks by id and satisfies the invariant of the data model
    (nothing set while a task is Pending or Running; then the output exactly
    on Success and the error exactly on Error), and so does the list the run
    ends with.  The ids of the tasks are distinct, as the data model has
    them. *)
Theorem task_invariant_throughout (provider : Provider) (content : string) (st : State) :
  content <> EmptyString ->
  agents st <> [] ->
  NoDup (id <$> agents st) ->
  let st' := (runWorkflow provider content st).2 in
  exists reset later,
    trace st' = trace st ++ SetAgents reset :: later
    /\ Forall2 resetOf (agents st) reset
    /\ snapshotsOk later
    /\ snapshotsKeep (id <$> agents st) later
    /\ Forall taskInvariant (agents st')
    /\ id <$> agents st' = id <$> agents st.
Proof.
  intros Hcontent Hagents Hnodup st'.
  pose proof (nothingToRun_false content st Hcontent Hagents) as Hguard.
  destruct (runWorkflow_by_position provider content st Hguard Hnodup) as (Hfinal & _).
  destruct (runWorkflow_snapshotsKeep provider content st Hguard Hnodup)
    as (later & Htrace & Hok & Hkeep).
  fold st' in Hfinal, Htrace.
  exists (agentsToRun st), later. split_and!.
  - done.
  - apply resetOf_agentsToRun.
  - done.
  - done.
  - rewrite Hfinal. apply settledFrom_invariant, pristine_agentsToRun.
  - by apply runWorkflow_ids.
Qed.

(** C8: when the provider answers every call, a run starts from the reset
    task list (every task Pending, fields null) and ends with the same tasks,
    every one of them in status Success with an output and no error. *)
Theorem all_calls_succeed (provider : Provider) (content : string) (st : State) :
  content <> EmptyString ->
  agents st <> [] ->
  (forall n m c, is_Some (provider n m c)) ->
  let st' := (runWorkflow provider content st).2 in
  (exists later, trace st' = trace st ++ SetAgents (agentsToRun st) :: later)
  /\ Forall pristine (agentsToRun st)
  /\ id <$> agents st' = id <$> agents st
  /\ Forall succeeded (agents st').
Proof.
  intros Hcontent Hagents Hanswers st'.
  pose proof (nothingToRun_false content st Hcontent Hagents) as Hguard.
  destruct (runWorkflow_after_loop provider content st Hguard)
    as (Hfinal & tail & Htrace & _).
  fold st' in Hfinal, Htrace.
  destruct (loop_all_succeed provider (agentsToRun st) Hanswers []
              (initialLocals content st) (resetState st))
    as (Hsync & Hids & Hsucceeded & events & Hevents);
    [done | apply Forall_forall; intros a _ Hin; by apply elem_of_nil in Hin |].
  cbn zeta in *. simpl in Hids, Hsucceeded, Hevents.
  split_and!.
  - exists (events ++ tail). rewrite Htrace, Hevents. by rewrite <- !app_assoc.
  - apply pristine_agentsToRun.
  - by rewrite Hfinal, Hsync, Hids, ids_agentsToRun.
  - rewrite Hfinal, Hsync. rewrite Forall_forall in Hsucceeded |- *.
    intros a Ha. apply Hsucceeded; [done|].
    rewrite <- Hids. apply list_elem_of_fmap. by exists a.
Qed.

End Runner.

(** ** The extraction of the structured output *)

Section Extraction.
Import Js Types App Reading StringFacts.
Context {host : Host}.

(** C4: the extraction is a total function of the text, so it raises
    nothing.  It gives [null] when the text holds no fenced block; when it
    holds one, the first opening fence and the first closing fence after it
    delimit the content that is read, whatever follows (further blocks
    included), and the result is the decoded content, or [null] when the
    content does not decode. *)
Theorem extraction_reads_the_first_block (out : string) :
  (~ hasFencedBlock out -> extractOutputJson out = Null)
  /\ (forall before content after,
        out = before +:+ fenceOpen +:+ content +:+ fenceClose +:+ after ->
        firstOccurrence fenceOpen before (content +:+ fenceClose +:+ after) ->
        firstOccurrence fenceClose content after ->
        extractOutputJson out
        = match JSON_parse content with Some v => v | None => Null end)
  /\ (hasFencedBlock out ->
      exists before content after,
        out = before +:+ fenceOpen +:+ content +:+ fenceClose +:+ after
        /\ firstOccurrence fenceOpen before (content +:+ fenceClose +:+ after)
        /\ firstOccurrence fenceClose content after).
Proof.
  split_and!.
  - intros Hnone. unfold extractOutputJson. by rewrite jsonMatch_None.
  - intros before content after -> Hopen Hclose. unfold extractOutputJson.
    rewrite jsonMatch_first by done. case_bool_decide as Hempty; [|done].
    subst content. by rewrite JSON_parse_empty.
  - intros [content Hmatch]%hasFencedBlock_jsonMatch.
    destruct (jsonMatch_Some _ _ Hmatch) as (before & after & Heq & Hopen & Hclose).
    by exists before, content, after.
Qed.

End Extraction.

(** ** The aggregation *)

Section Aggregation.
Import Js Types App Reading.
Context {host : Host}.

(** The sentiment of [newAnalysis] is the sentiment part, and its entities
    are the entities part. *)
Lemma newAnalysis_Some (successful : list Agent) (r : AnalysisResult) :
  newAnalysis successful = Some r ->
  sentimentPart (findByName sentimentRole successful) = Some (sentiment r)
  /\ entities r = entitiesPart (findByName entityRole successful).
Proof.
  unfold newAnalysis. destruct (sentimentPart _) as [s|]; [|done].
  simpl. by intros [= <-].
Qed.

(** C10: when the sentiment field of the sentiment task (the first
    successful task with the role's name) is absent or falsy ([null], the
    empty string, 0, ...), the aggregation returns, and its sentiment is
    [null]: no tally, not a neutral one. *)
Theorem falsy_sentiment_gives_no_tally (final : list Agent) (a : Agent) :
  findByName sentimentRole (successfulAgents final) = Some a ->
  (forall v, getProp (outputJson a) "sentiment" = Some v -> truthy v = false) ->
  exists r, newAnalysis (successfulAgents final) = Some r /\ sentiment r = None.
Proof.
  intros Hfind Hfalsy. unfold newAnalysis, sentimentPart, sentimentField.
  rewrite Hfind. simpl.
  destruct (getProp (outputJson a) "sentiment") as [v|] eqn:Hv; [|by eexists].
  rewrite (Hfalsy v eq_refl). by eexists.
Qed.

(** C5, as the code has it: a truthy sentiment field is converted to a
    string and lowercased; [positive] gives the positive tally, [negative]
    the negative one, any other string the neutral one.  Every tally the
    aggregation produces has exactly one bucket at 1, the others at 0. *)
Theorem truthy_sentiment_gives_one_tally :
  (forall (final : list Agent) (a : Agent) (v : value) (s : string),
      findByName sentimentRole (successfulAgents final) = Some a ->
      getProp (outputJson a) "sentiment" = Some v ->
      truthy v = true ->
      ToString v = Some s ->
      exists r, newAnalysis (successfulAgents final) = Some r
        /\ sentiment r
           = Some (if bool_decide (toLowerCase s = "positive") then mkTally 1 0 0
                   else if bool_decide (toLowerCase s = "negative") then mkTally 0 1 0
                   else mkTally 0 0 1))
  /\ (forall (successful : list Agent) (r : AnalysisResult) (t : SentimentTally),
        newAnalysis successful = Some r -> sentiment r = Some t ->
        t = mkTally 1 0 0 \/ t = mkTally 0 1 0 \/ t = mkTally 0 0 1).
Proof.
  split.
  - intros final a v s Hfind Hv Htruthy Hs.
    unfold newAnalysis, sentimentPart, sentimentField.
    rewrite Hfind. simpl. rewrite Hv, Htruthy, Hs. simpl. by eexists.
  - intros successful r t [Hsentiment _]%newAnalysis_Some Ht.
    unfold sentimentPart in Hsentiment. rewrite Ht in Hsentiment.
    destruct (sentimentField _) as [v|]; [|done].
    destruct (truthy v); [|done].
    destruct (ToString v) as [s|]; [|done]. simpl in Hsentiment.
    injection Hsentiment as <-. unfold tallyOf.
    repeat case_bool_decide; auto.
Qed.

(** C6, as the code has it: the entities are [null] unless the structured
    output of the entity task (the first successful task with the role's
    name) is an array; then they are its elements that pass the filter, in
    their order, each with a string name and a string type, and they may be
    none.  The aggregation stores the result exactly when it has a sentiment
    tally or at least one entity; otherwise it leaves the stored analysis as
    it was. *)
Theorem entities_are_the_filtered_array (final : list Agent) (r : AnalysisResult) :
  newAnalysis (successfulAgents final) = Some r ->
  entities r
  = match findByName entityRole (successfulAgents final) with
    | Some a =>
        match outputJson a with
        | Arr elems => Some (List.filter wellTypedEntity elems)
        | _ => None
        end
    | None => None
    end
  /\ (forall es, entities r = Some es ->
        Forall (fun e => exists n t, getProp e "name" = Some (Str n)
                                     /\ getProp e "type" = Some (Str t)) es)
  /\ (forall st, exists st',
        aggregate final st = Some st'
        /\ ((sentiment r <> None \/ exists e es, entities r = Some (e :: es))
               /\ analysisResult st' = Some r
            \/ (sentiment r = None /\ (entities r = None \/ entities r = Some []))
               /\ analysisResult st' = analysisResult st)).
Proof.
  intros Hnew. pose proof Hnew as [_ Hentities]%newAnalysis_Some.
  assert (Hshape : entities r
    = match findByName entityRole (successfulAgents final) with
      | Some a =>
          match outputJson a with
          | Arr elems => Some (List.filter wellTypedEntity elems)
          | _ => None
          end
      | None => None
      end).
  { rewrite Hentities. unfold entitiesPart.
    destruct (findByName _ _) as [a|]; [|done].
    destruct (outputJson a); simpl; by rewrite ?andb_false_r. }
  split_and!; [done | |].
  - intros es Hes. rewrite Hshape in Hes.
    destruct (findByName _ _) as [a|]; [|done].
    destruct (outputJson a) as [| | | |elems|]; try done.
    injection Hes as <-. apply Forall_forall. intros e He.
    apply list_elem_of_In, filter_In in He as [_ He].
    unfold wellTypedEntity, isString in He.
    apply andb_true_iff in He as [[_ Hname]%andb_true_iff Htype].
    destruct (getProp e "name") as [[]|]; try done.
    destruct (getProp e "type") as [[]|]; try done. eauto.
  - intros st. unfold aggregate.
    destruct (successfulAgents final) as [|a l].
    + injection Hnew as <-. exists st. split; [done|]. right. simpl. eauto.
    + rewrite Hnew. cbn [mbind option_bind]. eexists. split; [reflexivity|].
      destruct r as [[t|] [[|e es]|]]; simpl; eauto 8.
Qed.

End Aggregation.

(** ** The run between its awaits *)

Section Awaits.
Import Js Types GeminiService App Reading RunFacts.
Context {host : Host}.

Lemma afterLoop_frame (L : Locals) (st : State) :
  (exists more, trace (afterLoop L st).2 = trace st ++ more)
  /\ agents (afterLoop L st).2 = agents st
  /\ (awaiting (afterLoop L st).1 = true ->
      isProcessing (afterLoop L st).2 = isProcessing st).
Proof.
  unfold afterLoop.
  destruct (aggregate (finalAgentsState L) st) as [st1|] eqn:Haggregate.
  - destruct (aggregate_frame _ _ _ Haggregate) as (Hagents & Htrace & Hprocessing & _).
    destruct (agentOutputsForFollowup L); simpl; rewrite ?Htrace, ?Hagents, ?Hprocessing.
    + split_and!; [exists []; by rewrite app_nil_r | done | done].
    + split_and!; [by eexists | done | done].
  - simpl. split_and!; [exists []; by rewrite app_nil_r | done | done].
Qed.

Lemma enterLoop_frame (rest : list Agent) (L : Locals) (st : State) :
  (exists more, trace (enterLoop rest L st).2 = trace st ++ more)
  /\ (awaiting (enterLoop rest L st).1 = true ->
      isProcessing (enterLoop rest L st).2 = isProcessing st).
Proof.
  destruct rest as [|agent rest]; simpl.
  - destruct (afterLoop_frame L st) as (Htrace & _ & Hprocessing). done.
  - split; [|done]. rewrite <- app_assoc. eauto.
Qed.

(** A run left alone settles as [runWorkflow] says, within one await per
    task and one for the follow-up. *)
Lemma settle_afterLoop (provider : Provider) (L : Locals) (st : State) (fuel : nat) :
  0 < fuel ->
  settle provider fuel (afterLoop L st).1 (afterLoop L st).2 = Some (conclude provider L st).
Proof.
  intros Hfuel. unfold afterLoop, conclude, followUp.
  destruct (aggregate (finalAgentsState L) st) as [st1|]; [|by destruct fuel].
  destruct (agentOutputsForFollowup L) as [|entry entries] eqn:Houts; [by destruct fuel|].
  destruct fuel as [|fuel]; [lia|]. simpl. by destruct fuel.
Qed.

Lemma settle_enterLoop (provider : Provider) (rest : list Agent) :
  forall (L : Locals) (st : State) (fuel : nat),
    length rest < fuel ->
    settle provider fuel (enterLoop rest L st).1 (enterLoop rest L st).2
    = Some (let r := loop provider rest L st in conclude provider r.1 r.2).
Proof.
  induction rest as [|agent rest IH]; intros L st fuel Hfuel.
  - apply settle_afterLoop. simpl in Hfuel. lia.
  - destruct fuel as [|fuel]; [simpl in Hfuel; lia|].
    cbn [enterLoop fst snd settle awaitedReply resume loop].
    destruct (runAgent (agentReply provider agent L) agent) as [out|e].
    + destruct (enterLoop rest _ _) as [r' st'] eqn:Henter.
      specialize (IH (fulfilledLocals agent out L)
                    (fulfilledState agent out (beginIteration agent L st)) fuel).
      rewrite Henter in IH. apply IH. simpl in Hfuel. lia.
    + destruct (afterLoop _ _) as [r' st'] eqn:Hafter.
      pose proof (settle_afterLoop provider (rejectedLocals agent e L)
                    (rejectedState agent e (beginIteration agent L st)) fuel) as Hsettle.
      rewrite Hafter in Hsettle. apply Hsettle. simpl in Hfuel. lia.
Qed.

Theorem settle_runWorkflow (provider : Provider) (content : string) (st : State) :
  settle provider (S (length (agents st))) (start content st).1 (start content st).2
  = Some (runWorkflow provider content st).
Proof.
  unfold start, runWorkflow. destruct (nothingToRun content st); [done|].
  rewrite settle_enterLoop by (unfold agentsToRun; rewrite length_fmap; lia).
  by destruct (loop _ _ _ _).
Qed.

(** [runWorkflow] checks nowhere that it is still the active run: when the
    call for a task settles, the update of that task is applied by id to the
    task list as it stands, whatever run marked it, and that list is
    published; when the follow-up call settles with questions, they are
    stored. *)
Lemma completion_is_unguarded :
  (forall agent rest L reply st, exists more,
      trace (resume (AwaitRunAgent agent rest L) reply st).2
      = trace st ++ SetAgents (mapById (id agent) (settledTask agent reply) (agents st)) :: more)
  /\ (forall L questions st,
        followUpQuestions (resume (AwaitFollowUp L) (Some questions) st).2 = Some questions).
Proof.
  split.
  - intros agent rest L reply st. unfold settledTask. cbn [resume].
    destruct (runAgent reply agent) as [out|e].
    + destruct (enterLoop_frame rest (fulfilledLocals agent out L)
                  (fulfilledState agent out st)) as [[more ->] _].
      simpl. rewrite <- app_assoc. eauto.
    + destruct (afterLoop_frame (rejectedLocals agent e L) (rejectedState agent e st))
        as [[more ->] _].
      simpl. rewrite <- app_assoc. eauto.
  - done.
Qed.

(** *** The follow-up of a run that resolves *)

Lemma followUpCalled_app (l k : list Event) :
  followUpCalled (l ++ k) = followUpCalled l || followUpCalled k.
Proof. apply existsb_app. Qed.

Lemma eventsFrom_no_followUp (provider : Provider) (content : string) (rest : list Agent) :
  forall pre n, followUpCalled (eventsFrom provider content pre n rest) = false.
Proof.
  induction rest as [|agent rest IH]; intros pre n; [done|].
  cbn [eventsFrom]. destruct (provider n _ _); simpl; [apply IH | done].
Qed.

Lemma followUp_analysisResult (provider : Provider) (L : Locals) (st : State) :
  analysisResult (followUp provider L st) = analysisResult st.
Proof.
  unfold followUp, followUpSettled.
  destruct (agentOutputsForFollowup L); [done|]. by destruct (followUpReply provider L).
Qed.

Lemma successfulAgents_none (l : list Agent) :
  (forall a, a ∈ l -> status a <> Success) -> successfulAgents l = [].
Proof.
  unfold successfulAgents. induction l as [|a l IH]; intros Hnone; [done|].
  rewrite filter_cons_False by (apply Hnone; left).
  apply IH. intros b Hb. apply Hnone. by right.
Qed.

(** When the aggregation returns: the follow-up synthesis is called exactly
    when a task succeeded, and then once, as the last step of the run, with
    the document and the entries of the tasks in status Success; it is the
    request the run issues after those of its [runAgent] calls, and the
    follow-up output is what the provider answers to that request, so a
    failed synthesis leaves it null, as does a run that does not call it.
    Without a successful task no analysis is stored.  The tasks are those
    the loop left. *)
Lemma follow_up_when_the_run_resolves (provider : Provider) (content : string) (st : State) :
  content <> EmptyString ->
  agents st <> [] ->
  NoDup (id <$> agents st) ->
  let r := runWorkflow provider content st in
  r.1 = Resolved ->
  exists events,
    trace r.2 = trace st ++ events
    /\ (followUpCalled events = true <-> exists a, a ∈ agents r.2 /\ status a = Success)
    /\ ((forall a, a ∈ agents r.2 -> status a <> Success) -> analysisResult r.2 = None)
    /\ (let outputs := join (nl +:+ nl) (successEntries (agents r.2)) in
        if followUpCalled events
        then last events = Some (CallGenerateFollowUpQuestions content outputs)
             /\ followUpQuestions r.2
                = provider (length (runAgentCalls events)) followUpModel
                    (followUpPrompt content outputs)
        else followUpQuestions r.2 = None)
    /\ agents r.2 = settledFrom provider content 0 (agentsToRun st)
    /\ isProcessing r.2 = false.
Proof.
  intros Hcontent Hagents Hnodup.
  pose proof (nothingToRun_false content st Hcontent Hagents) as Hguard.
  unfold runWorkflow. rewrite Hguard.
  pose proof (loop_by_position provider (agentsToRun st) [] (initialLocals content st)
                (resetState st)) as Hloop.
  pose proof (loop_requests provider (agentsToRun st) [] (initialLocals content st)
                (resetState st)) as Hrequests.
  destruct (loop _ _ _ _) as [L st1]. cbn zeta in Hloop |- *.
  cbn [fst snd] in Hloop, Hrequests.
  destruct Hloop as (Hfinal & Hsync & Htrace & Houts & Hdoc & _ & Hanalysis & Hquestions);
    [simpl; by rewrite ids_agentsToRun | done | done |].
  simpl in Hfinal, Htrace, Houts, Hdoc, Hanalysis, Hquestions, Hrequests.
  unfold conclude.
  destruct (aggregate (finalAgentsState L) st1) as [st2|] eqn:Haggregate; [|done].
  intros _. cbn [fst snd].
  destruct (aggregate_frame _ _ _ Haggregate) as (Hagents2 & Htrace2 & _ & Hquestions2).
  pose proof (outputsFrom_successes provider content (agentsToRun st) 0
                (pristine_agentsToRun st)) as Hcount.
  rewrite <- Houts, <- Hfinal in Hcount.
  assert (Hsuccess : (exists a, a ∈ finalAgentsState L /\ status a = Success)
                     <-> agentOutputsForFollowup L <> []).
  { split.
    - intros (a & Ha & Hs) Hnil. rewrite Hnil in Hcount. simpl in Hcount.
      symmetry in Hcount. apply length_zero_iff_nil in Hcount.
      assert (Hin : a ∈ successfulAgents (finalAgentsState L))
        by (by apply list_elem_of_filter).
      rewrite Hcount in Hin. by apply elem_of_nil in Hin.
    - intros Hne. destruct (successfulAgents (finalAgentsState L)) as [|a l] eqn:E.
      + destruct (agentOutputsForFollowup L); done.
      + assert (Hin : a ∈ successfulAgents (finalAgentsState L)) by (rewrite E; left).
        apply list_elem_of_filter in Hin as [Hs Hin]. eauto. }
  assert (Hentries : agentOutputsForFollowup L = successEntries (finalAgentsState L)).
  { rewrite Houts, Hfinal. apply outputsFrom_entries, pristine_agentsToRun. }
  eexists. split_and!.
  - rewrite followUp_trace, Htrace2, Htrace. rewrite <- !app_assoc. reflexivity.
  - rewrite followUp_agents, Hagents2, Hsync, Hsuccess.
    simpl. rewrite followUpCalled_app, eventsFrom_no_followUp. simpl.
    destruct (agentOutputsForFollowup L); simpl; split; done.
  - rewrite followUp_agents, Hagents2, Hsync. intros Hnone.
    unfold aggregate in Haggregate.
    rewrite successfulAgents_none in Haggregate by done.
    injection Haggregate as <-. by rewrite followUp_analysisResult.
  - rewrite followUp_agents, Hagents2, Hsync. cbn zeta.
    simpl. rewrite followUpCalled_app, eventsFrom_no_followUp. simpl.
    rewrite runAgentCalls_app.
    unfold followUp, followUpSettled, followUpReply, followUpOutputs.
    rewrite Hrequests, Hdoc, <- Hentries.
    set (outputs := join (nl +:+ nl) (agentOutputsForFollowup L)). clearbody outputs.
    destruct (agentOutputsForFollowup L) as [|entry entries]; simpl.
    + by rewrite Hquestions2.
    + split; [by rewrite app_comm_cons, last_snoc|].
      rewrite app_nil_r.
      destruct (provider _ _ _) as [questions|]; simpl; [done | by rewrite Hquestions2].
  - by rewrite followUp_agents, Hagents2, Hsync, Hfinal.
  - unfold followUp. done.
Qed.

End Awaits.

(** ** The properties at concrete inputs *)

Module Examples.
Import Js Types GeminiService App Reading Demo.

Lemma threeTasks_distinct : NoDup (id <$> agents (idle threeTasks)).
Proof. apply (bool_decide_unpack _). vm_compute. exact I. Defined.

(** The second of three calls fails: the second task holds the error, the
    third is still Pending. *)
Lemma failure_stops_the_run_witness :
  document <> EmptyString
  /\ NoDup (id <$> agents (idle threeTasks))
  /\ agents (idle threeTasks) !! 1 = Some entityTask
  /\ failingAt 1 "ok" 1 (model entityTask) (fullPrompt entityTask document) = None
  /\ (exists a, agents (runWorkflow (failingAt 1 "ok") document (idle threeTasks)).2 !! 1
                = Some a
                /\ status a = Error
                /\ error a = Some ("Agent " +:+ dquote +:+ "Entity Extractor" +:+ dquote
                                   +:+ " failed to execute."))
  /\ (forall j a, 1 < j ->
        agents (runWorkflow (failingAt 1 "ok") document (idle threeTasks)).2 !! j = Some a ->
        status a = Pending).
Proof.
  assert (Hcontent : document <> EmptyString) by discriminate.
  assert (Hbefore : forall j a, j < 1 -> agents (idle threeTasks) !! j = Some a ->
            is_Some (failingAt 1 "ok" j (model a) (fullPrompt a document))).
  { intros j a Hj _. destruct j as [|j]; [by eexists | lia]. }
  destruct (failure_stops_the_run (host := demoHost) (failingAt 1 "ok") document
              (idle threeTasks) 1 entityTask Hcontent threeTasks_distinct eq_refl Hbefore
              eq_refl) as ((a & Ha & _ & _ & Hstatus & Herror) & Hafter & _).
  split_and!; [done | exact threeTasks_distinct | done | done | | exact Hafter].
  exists a. by split_and!.
Defined.

Lemma task_invariant_throughout_witness :
  document <> EmptyString
  /\ agents (idle threeTasks) <> []
  /\ NoDup (id <$> agents (idle threeTasks))
  /\ exists reset later,
       trace (runWorkflow (failingAt 1 "ok") document (idle threeTasks)).2
       = trace (idle threeTasks) ++ SetAgents reset :: later
       /\ Forall2 resetOf (agents (idle threeTasks)) reset
       /\ snapshotsOk later
       /\ snapshotsKeep (id <$> agents (idle threeTasks)) later
       /\ Forall taskInvariant
            (agents (runWorkflow (failingAt 1 "ok") document (idle threeTasks)).2)
       /\ id <$> agents (runWorkflow (failingAt 1 "ok") document (idle threeTasks)).2
          = id <$> agents (idle threeTasks).
Proof.
  assert (Hcontent : document <> EmptyString) by discriminate.
  assert (Hagents : agents (idle threeTasks) <> []) by discriminate.
  split_and!; [done | done | exact threeTasks_distinct |].
  exact (task_invariant_throughout (host := demoHost) (failingAt 1 "ok") document
           (idle threeTasks) Hcontent Hagents threeTasks_distinct).
Defined.

Lemma nothing_to_run_witness :
  (EmptyString = EmptyString \/ agents (idle threeTasks) = [])
  /\ runWorkflow (answering "ok") EmptyString (idle threeTasks) = (Resolved, idle threeTasks).
Proof.
  split; [by left|].
  apply (nothing_to_run_is_a_no_op (host := demoHost)). by left.
Defined.

Lemma all_calls_succeed_witness :
  document <> EmptyString
  /\ agents (idle threeTasks) <> []
  /\ (forall n m c, is_Some (answering "ok" n m c))
  /\ Forall succeeded (agents (runWorkflow (answering "ok") document (idle threeTasks)).2).
Proof.
  assert (Hcontent : document <> EmptyString) by discriminate.
  assert (Hagents : agents (idle threeTasks) <> []) by discriminate.
  assert (Hanswers : forall n m c, is_Some (answering "ok" n m c)) by (by eexists).
  destruct (all_calls_succeed (host := demoHost) (answering "ok") document
              (idle threeTasks) Hcontent Hagents Hanswers) as (_ & _ & _ & Hfinal).
  split_and!; [done | done | exact Hanswers | exact Hfinal].
Defined.

(** Two blocks in one response: the first one is read. *)
Lemma extraction_witness :
  extractOutputJson (fenced "true" +:+ fenced positiveText) = Bool true.
Proof.
  destruct (StringFacts.jsonMatch_Some (fenced "true" +:+ fenced positiveText) "true" eq_refl)
    as (before & after & Heq & Hopen & Hclose).
  destruct (extraction_reads_the_first_block (host := demoHost)
              (fenced "true" +:+ fenced positiveText)) as (_ & Hfirst & _).
  by rewrite (Hfirst before "true" after Heq Hopen Hclose).
Defined.

(** The sentiment field is there and is the empty string: no tally. *)
Lemma sentiment_field_without_tally : ~ everySentimentTallied.
Proof.
  intros Hclaim.
  destruct (Hclaim [succeededWith sentimentTask emptySentiment]
              (succeededWith sentimentTask emptySentiment) (Str EmptyString) eq_refl eq_refl)
    as (r & t & Hr & Ht).
  vm_compute in Hr. injection Hr as <-. discriminate.
Qed.

Lemma falsy_sentiment_witness :
  findByName sentimentRole (successfulAgents [succeededWith sentimentTask emptySentiment])
  = Some (succeededWith sentimentTask emptySentiment)
  /\ (forall v, getProp (outputJson (succeededWith sentimentTask emptySentiment)) "sentiment"
                = Some v -> truthy v = false)
  /\ exists r, newAnalysis (successfulAgents [succeededWith sentimentTask emptySentiment])
               = Some r /\ sentiment r = None.
Proof.
  assert (Hfalsy : forall v,
            getProp (outputJson (succeededWith sentimentTask emptySentiment)) "sentiment"
            = Some v -> truthy v = false) by (by intros v [= <-]).
  split_and!; [done | exact Hfalsy |].
  exact (falsy_sentiment_gives_no_tally (host := demoHost)
           [succeededWith sentimentTask emptySentiment]
           (succeededWith sentimentTask emptySentiment) eq_refl Hfalsy).
Defined.

(** [Positive] in any case is the positive tally. *)
Lemma truthy_sentiment_witness :
  exists r, newAnalysis (successfulAgents [succeededWith sentimentTask positiveValue]) = Some r
            /\ sentiment r = Some (mkTally 1 0 0).
Proof.
  exact (proj1 (truthy_sentiment_gives_one_tally (host := demoHost))
           [succeededWith sentimentTask positiveValue]
           (succeededWith sentimentTask positiveValue) (Str "Positive") "Positive"
           eq_refl eq_refl eq_refl eq_refl).
Defined.

(** The entity task returned an array with no well-typed element: the
    entities are the empty sequence, and they are stored beside the tally. *)
Lemma entities_can_be_empty : ~ entitiesNeverEmpty.
Proof.
  intros Hclaim.
  apply (Hclaim [succeededWith sentimentTask positiveValue;
                 succeededWith entityTask (Arr [Obj {[ "name" := Str "X" ]}])]
           (mkAnalysis (Some (mkTally 1 0 0)) (Some []))); reflexivity.
Qed.

(** Without a tally the empty entities are not stored. *)
Example empty_entities_alone_are_not_stored :
  analysisResult <$>
    aggregate [succeededWith entityTask (Arr [Obj {[ "name" := Str "X" ]}])] (idle [])
  = Some None.
Proof. reflexivity. Qed.

Example empty_entities_are_stored :
  analysisResult <$>
    aggregate [succeededWith sentimentTask positiveValue;
               succeededWith entityTask (Arr [Obj {[ "name" := Str "X" ]}])] (idle [])
  = Some (Some (mkAnalysis (Some (mkTally 1 0 0)) (Some []))).
Proof. reflexivity. Qed.

(** The example of the spec: the entry without a type is dropped, and the
    result, which has an entity, is stored. *)
Lemma entities_witness :
  newAnalysis (successfulAgents [succeededWith entityTask entitiesValue])
  = Some (mkAnalysis None (Some [acme]))
  /\ entities (mkAnalysis None (Some [acme])) = Some [acme]
  /\ exists st',
       aggregate [succeededWith entityTask entitiesValue] (idle []) = Some st'
       /\ ((sentiment (mkAnalysis None (Some [acme])) <> None
             \/ exists e es, entities (mkAnalysis None (Some [acme])) = Some (e :: es))
              /\ analysisResult st' = Some (mkAnalysis None (Some [acme]))
           \/ (sentiment (mkAnalysis None (Some [acme])) = None
               /\ (entities (mkAnalysis None (Some [acme])) = None
                   \/ entities (mkAnalysis None (Some [acme])) = Some []))
              /\ analysisResult st' = analysisResult (idle [])).
Proof.
  assert (Hr : newAnalysis (successfulAgents [succeededWith entityTask entitiesValue])
               = Some (mkAnalysis None (Some [acme]))) by reflexivity.
  split; [exact Hr|]. split.
  - exact (proj1 (entities_are_the_filtered_array (host := demoHost) _ _ Hr)).
  - exact (proj2 (proj2 (entities_are_the_filtered_array (host := demoHost) _ _ Hr))
             (idle [])).
Defined.

(** C7: the sentiment task answers [{"sentiment":{"toString":1}}] in a
    fenced block.  The task succeeds; the conversion of the sentiment to a
    string throws in the aggregation, which nothing catches: the promise is
    rejected, the follow-up synthesis is not called although a task
    succeeded, and [isProcessing] stays true. *)
Theorem aggregation_exception_skips_the_follow_up :
  JSON_parse unconvertibleText = Some unconvertibleValue
  /\ (runWorkflow (host := demoHost) (answering (fenced unconvertibleText)) document
        (idle [sentimentTask])).1 = Rejected
  /\ status <$> agents (runWorkflow (host := demoHost) (answering (fenced unconvertibleText))
                          document (idle [sentimentTask])).2 = [Success]
  /\ followUpCalled (trace (runWorkflow (host := demoHost)
                              (answering (fenced unconvertibleText)) document
                              (idle [sentimentTask])).2) = false
  /\ isProcessing (runWorkflow (host := demoHost) (answering (fenced unconvertibleText))
                     document (idle [sentimentTask])).2 = true.
Proof. by vm_compute. Qed.

(** With any other sentiment the same run resolves and calls the follow-up. *)
Example follow_up_after_a_success :
  (runWorkflow (host := demoHost) (answering (fenced positiveText)) document
     (idle [sentimentTask])).1 = Resolved
  /\ followUpCalled (trace (runWorkflow (host := demoHost) (answering (fenced positiveText))
                              document (idle [sentimentTask])).2) = true.
Proof. by vm_compute. Qed.

Lemma follow_up_witness :
  document <> EmptyString
  /\ agents (idle threeTasks) <> []
  /\ NoDup (id <$> agents (idle threeTasks))
  /\ (runWorkflow (failingAt 1 "ok") document (idle threeTasks)).1 = Resolved
  /\ exists events,
       trace (runWorkflow (failingAt 1 "ok") document (idle threeTasks)).2
       = trace (idle threeTasks) ++ events
       /\ (followUpCalled events = true
           <-> exists a, a ∈ agents (runWorkflow (failingAt 1 "ok") document
                                       (idle threeTasks)).2
                         /\ status a = Success)
       /\ (if followUpCalled events
           then followUpQuestions (runWorkflow (failingAt 1 "ok") document
                                     (idle threeTasks)).2
                = failingAt 1 "ok" (length (runAgentCalls events)) followUpModel
                    (followUpPrompt document
                       (join (nl +:+ nl)
                          (successEntries
                             (agents (runWorkflow (failingAt 1 "ok") document
                                        (idle threeTasks)).2))))
           else followUpQuestions (runWorkflow (failingAt 1 "ok") document
                                     (idle threeTasks)).2 = None).
Proof.
  assert (Hcontent : document <> EmptyString) by discriminate.
  assert (Hagents : agents (idle threeTasks) <> []) by discriminate.
  assert (Hresolved : (runWorkflow (failingAt 1 "ok") document (idle threeTasks)).1
                      = Resolved) by reflexivity.
  destruct (follow_up_when_the_run_resolves (host := demoHost) (failingAt 1 "ok") document
              (idle threeTasks) Hcontent Hagents threeTasks_distinct Hresolved)
    as (events & Htrace & Hiff & _ & Hquestions & _).
  split_and!; [done | done | exact threeTasks_distinct | exact Hresolved |].
  exists events. split_and!; [done | done |].
  cbn zeta in Hquestions. destruct (followUpCalled events); [apply Hquestions | done].
Defined.

(** The follow-up is the request after those of the tasks: when the second
    request fails, one task gets no follow-up (its follow-up is that
    request), while three tasks, the second of which fails, get theirs. *)
Example failed_follow_up_leaves_null :
  followUpQuestions (runWorkflow (host := demoHost) (failingAt 1 "ok") document
                       (idle [summaryTask])).2 = None
  /\ followUpCalled (trace (runWorkflow (host := demoHost) (failingAt 1 "ok") document
                              (idle [summaryTask])).2) = true
  /\ followUpQuestions (runWorkflow (host := demoHost) (failingAt 1 "ok") document
                          (idle threeTasks)).2 = Some "ok".
Proof. by vm_compute. Qed.

(** Two tasks with one id: the failure of the first is written on both, and
    the task after the failing one is not Pending.  The distinct ids of the
    data model are what the properties of the runner rest on. *)
Example one_id_for_two_tasks :
  status <$> agents (runWorkflow (host := demoHost) (failingAt 0 "ok") document
                       (idle [sentimentTask; mkAgent "agent-1" "Summarizer" "Summarize." Pending "gemini-2.5-pro" None None Null])).2
  = [Error; Error].
Proof. by vm_compute. Qed.

End Examples.

(** ** The document of the page *)

Module PageFacts.
Import Js Types GeminiService App Reading RunFacts Text Page.

Section WithConstants.
Context {host : Host} {constants : Constants}.

Lemma isBlank_nonempty (s : string) : isBlank s = false -> s <> EmptyString.
Proof. by intros Hs ->. Qed.

(** What the reset of the document leaves and what it clears. *)
Lemma resetDocumentState_frame (p : State) :
  agents (workflow (resetDocumentState p)) = agents (workflow p)
  /\ trace (workflow (resetDocumentState p)) = trace (workflow p)
  /\ isProcessing (workflow (resetDocumentState p)) = false
  /\ analysisResult (workflow (resetDocumentState p)) = None
  /\ followUpQuestions (workflow (resetDocumentState p)) = None
  /\ documentFile (resetDocumentState p) = initialDocument
  /\ keywords (resetDocumentState p) = []
  /\ pastedContent (resetDocumentState p) = pastedContent p
  /\ alerts (resetDocumentState p) = alerts p.
Proof. by split_and!. Qed.

(** A run that awaits has tasks, and is marked as processing. *)
Lemma start_awaiting (content : string) (st : App.State) :
  awaiting (start content st).1 = true ->
  isProcessing (start content st).2 = true /\ agents (start content st).2 <> [].
Proof.
  unfold start. destruct (nothingToRun content st) eqn:Hguard; [done|].
  unfold nothingToRun in Hguard. apply orb_false_iff in Hguard as [_ Hlen].
  apply bool_decide_eq_false in Hlen. intros _.
  assert (Htasks : agentsToRun st <> []).
  { unfold agentsToRun. by destruct (agents st). }
  unfold resetState. destruct (agentsToRun st) as [|a l]; [done|].
  simpl. by case_bool_decide.
Qed.

Lemma sortedPages_elem (selected : gset nat) (n : nat) :
  n ∈ sortedPages selected <-> n ∈ selected.
Proof. unfold sortedPages. by rewrite merge_sort_Permutation, elem_of_elements. Qed.

Lemma sortedPages_length (selected : gset nat) :
  length (sortedPages selected) = size selected.
Proof. unfold sortedPages. by rewrite merge_sort_Permutation. Qed.

Lemma sortedPages_ascending (selected : gset nat) :
  StronglySorted Nat.lt (sortedPages selected).
Proof.
  assert (Hsorted : StronglySorted Nat.le (sortedPages selected)).
  { apply StronglySorted_merge_sort; [intros x y z; apply Nat.le_trans|].
    intros x y. destruct (Nat.le_ge_cases x y); auto. }
  assert (Hnodup : NoDup (sortedPages selected)).
  { unfold sortedPages. rewrite merge_sort_Permutation. apply NoDup_elements. }
  induction Hsorted as [|n l Hl IH Hn]; [constructor|].
  apply NoDup_cons in Hnodup as [Hfresh Hnodup]. constructor; [by apply IH|].
  rewrite Forall_forall in Hn |- *. intros m Hm.
  assert (n <> m) by (intros ->; done). specialize (Hn m Hm). unfold Nat.lt. lia.
Qed.

Lemma pageSection_nonempty (pageNum : nat) (text : string) :
  pageSection pageNum text <> EmptyString.
Proof. done. Qed.

Lemma join_nonempty (sep first : string) (others : list string) :
  first <> EmptyString -> join sep (first :: others) <> EmptyString.
Proof. destruct first as [|c first]; [done|]. by destruct others. Qed.

Lemma pageTextsFrom_nonempty (reader : PageReader) (n : nat) (pages : list nat) :
  pages <> [] ->
  exists first others,
    pageTextsFrom reader n pages = first :: others /\ first <> EmptyString.
Proof.
  destruct pages as [|pageNum pages]; [done|]. intros _. cbn [pageTextsFrom].
  destruct (readPage reader n pageNum); eexists _, _; split; try done.
Qed.

(** Every page is read: a section per page, in the order of the pages. *)
Lemma pageTextsFrom_all (reader : PageReader) (pages : list nat) :
  forall n,
    (forall k pageNum, pages !! k = Some pageNum -> is_Some (readPage reader (n + k) pageNum)) ->
    exists texts,
      length texts = length pages
      /\ pageTextsFrom reader n pages = zip_with pageSection pages texts.
Proof.
  induction pages as [|pageNum pages IH]; intros n Hread; [by exists []|].
  cbn [pageTextsFrom]. destruct (Hread 0 pageNum eq_refl) as [text Htext].
  rewrite Nat.add_0_r in Htext. rewrite Htext.
  destruct (IH (S n)) as (texts & Hlen & ->).
  { intros k page Hk. replace (S n + k) with (n + S k) by lia. by apply Hread. }
  exists (text :: texts). split; [simpl; by rewrite Hlen | done].
Qed.

(** The first failure: the sections of the pages before it, then the
    section of the failure, and nothing of the pages after it. *)
Lemma pageTextsFrom_failure (reader : PageReader) (pages : list nat) :
  forall n K pageK,
    pages !! K = Some pageK ->
    (forall k pageNum, k < K -> pages !! k = Some pageNum ->
       is_Some (readPage reader (n + k) pageNum)) ->
    readPage reader (n + K) pageK = None ->
    exists texts,
      length texts = K
      /\ pageTextsFrom reader n pages
         = zip_with pageSection (take K pages) texts ++ [pageSection pageK "[OCR Failed]"].
Proof.
  induction pages as [|pageNum pages IH]; intros n K pageK HK Hbefore Hfail; [done|].
  cbn [pageTextsFrom]. destruct K as [|K].
  - injection HK as ->. rewrite Nat.add_0_r in Hfail. rewrite Hfail. by exists [].
  - destruct (Hbefore 0 pageNum) as [text Htext]; [lia | done |].
    rewrite Nat.add_0_r in Htext. rewrite Htext.
    destruct (IH (S n) K pageK) as (texts & Hlen & ->); [done | | |].
    + intros k page Hk Hpage. replace (S n + k) with (n + S k) by lia.
      apply Hbefore; [lia | done].
    + by replace (S n + K) with (n + S K) by lia.
    + exists (text :: texts). split; [simpl; by rewrite Hlen | done].
Qed.

End WithConstants.
End PageFacts.

Section Document.
Import Js Types GeminiService App Reading RunFacts Text Page PageFacts.
Context {host : Host} {constants : Constants}.

(** Pasted content: when it is blank nothing happens; otherwise it becomes
    the content of the document as it was typed (not trimmed), the results of
    the last run and the keywords are cleared, the tasks are kept, and the
    Run control is disabled exactly when there is no task. *)
Theorem paste_becomes_the_document (now : nat) (p : State) :
  (isBlank (pastedContent p) = true -> handlePasteLoad now p = p)
  /\ (isBlank (pastedContent p) = false ->
      DocumentFile.content (documentFile (handlePasteLoad now p)) = pastedContent p
      /\ DocumentFile.type (documentFile (handlePasteLoad now p)) = DocumentType.PASTE
      /\ pastedContent (handlePasteLoad now p) = EmptyString
      /\ agents (workflow (handlePasteLoad now p)) = agents (workflow p)
      /\ analysisResult (workflow (handlePasteLoad now p)) = None
      /\ followUpQuestions (workflow (handlePasteLoad now p)) = None
      /\ keywords (handlePasteLoad now p) = []
      /\ (runControlDisabled (handlePasteLoad now p) = true <-> agents (workflow p) = [])).
Proof.
  unfold handlePasteLoad. split; intros Hblank; rewrite Hblank; [done|].
  split_and!; try done.
  unfold runControlDisabled, runDisabled. simpl.
  rewrite (bool_decide_eq_false_2 (pastedContent p = EmptyString))
    by (by apply isBlank_nonempty).
  rewrite orb_false_r, bool_decide_eq_true. apply length_zero_iff_nil.
Qed.

(** The reset of the document clears [isProcessing] whether or not a run
    is awaiting a call.  So while a run awaits (the Run control being
    disabled), loading pasted content enables the control again: a second
    run can be started before the first has finished. *)
Theorem loading_a_document_enables_the_run_control (now : nat) (p : State) :
  awaiting (start (DocumentFile.content (documentFile p)) (workflow p)).1 = true ->
  isBlank (pastedContent p) = false ->
  runControlDisabled
    (withWorkflow (fun _ => (start (DocumentFile.content (documentFile p)) (workflow p)).2) p)
  = true
  /\ runControlDisabled
       (handlePasteLoad now
          (withWorkflow
             (fun _ => (start (DocumentFile.content (documentFile p)) (workflow p)).2) p))
     = false.
Proof.
  intros Hawaiting Hblank.
  destruct (start_awaiting _ _ Hawaiting) as [Hprocessing Htasks].
  split.
  - unfold runControlDisabled, runDisabled. simpl. by rewrite Hprocessing.
  - unfold handlePasteLoad. simpl. rewrite Hblank.
    unfold runControlDisabled, runDisabled. simpl.
    rewrite (bool_decide_eq_false_2 (pastedContent p = EmptyString))
      by (by apply isBlank_nonempty).
    rewrite bool_decide_eq_false_2; [done|].
    by destruct (agents (start _ _).2).
Qed.

(** Picking a file: without a file nothing happens.  With a file whose
    load fails, the document that was there is gone all the same: the page
    is left with the empty document, one alert more, the results of the last
    run and the keywords cleared, no loading in progress, the tasks kept and
    the Run control disabled. *)
Theorem failed_load_leaves_the_empty_document (file : File.t) (pdfRead : PdfRead)
    (textRead : option string) (p : State) :
  handleFileChange None pdfRead textRead p = p
  /\ (loadFails file pdfRead textRead p = true ->
      documentFile (handleFileChange (Some file) pdfRead textRead p) = initialDocument
      /\ length (alerts (handleFileChange (Some file) pdfRead textRead p))
         = S (length (alerts p))
      /\ isLoadingFile (handleFileChange (Some file) pdfRead textRead p) = false
      /\ analysisResult (workflow (handleFileChange (Some file) pdfRead textRead p)) = None
      /\ followUpQuestions (workflow (handleFileChange (Some file) pdfRead textRead p)) = None
      /\ keywords (handleFileChange (Some file) pdfRead textRead p) = []
      /\ agents (workflow (handleFileChange (Some file) pdfRead textRead p))
         = agents (workflow p)
      /\ runControlDisabled (handleFileChange (Some file) pdfRead textRead p) = true).
Proof.
  split; [done|]. unfold loadFails, handleFileChange.
  case_bool_decide.
  - destruct (isPdfLibReady p); simpl.
    + destruct pdfRead; intros Hfails; try done;
        (split_and!; unfold runControlDisabled, runDisabled; simpl;
         rewrite ?length_app, ?orb_true_r; simpl; try done; lia).
    + intros _. split_and!; unfold runControlDisabled, runDisabled; simpl;
        rewrite ?length_app, ?orb_true_r; simpl; try done; lia.
  - destruct textRead; intros Hfails; [done|].
    split_and!; unfold runControlDisabled, runDisabled; simpl;
      rewrite ?length_app, ?orb_true_r; simpl; try done; lia.
Qed.


End Document.
Module LoadFacts.
Import Js Types GeminiService App Reading RunFacts Text Page.

Section WithConstants.
Context {host : Host} {constants : Constants}.

Lemma resetAgent_markRunning (i : string) (l : list Agent) :
  resetAgent <$> mapById i markRunning l = resetAgent <$> l.
Proof.
  unfold mapById. rewrite <- list_fmap_compose. apply list_fmap_ext.
  intros k a _. simpl. by case_bool_decide.
Qed.

Lemma resetAgent_twice (l : list Agent) :
  resetAgent <$> (resetAgent <$> l) = resetAgent <$> l.
Proof. rewrite <- list_fmap_compose. by apply list_fmap_ext. Qed.

(** The first await of a run: of the call for the first task of the reset
    list, which is marked Running in the state. *)
Lemma start_AwaitRunAgent (content : string) (st : App.State) (agent : Agent)
    (rest : list Agent) (L : Locals) :
  (start content st).1 = AwaitRunAgent agent rest L ->
  agentsToRun st = agent :: rest
  /\ L = initialLocals content st
  /\ content <> EmptyString
  /\ (start content st).2 = beginIteration agent L (resetState st).
Proof.
  unfold start. destruct (nothingToRun content st) eqn:Hguard; [done|].
  apply orb_false_iff in Hguard as [Hcontent%bool_decide_eq_false _].
  destruct (agentsToRun st) as [|a l]; simpl.
  - unfold afterLoop. by destruct (aggregate _ _).
  - by intros [= -> -> <-].
Qed.

Lemma start_on_tasks (content : string) (st : App.State) (agent : Agent)
    (rest : list Agent) :
  content <> EmptyString ->
  agentsToRun st = agent :: rest ->
  start content st
  = (AwaitRunAgent agent rest (initialLocals content st),
     beginIteration agent (initialLocals content st) (resetState st)).
Proof.
  intros Hcontent Htasks. unfold start, nothingToRun.
  rewrite (bool_decide_eq_false_2 _ Hcontent).
  rewrite bool_decide_eq_false_2.
  - by rewrite Htasks.
  - unfold agentsToRun in Htasks. by destruct (agents st).
Qed.

End WithConstants.
End LoadFacts.

Section Load.
Import Js Types GeminiService App Reading RunFacts Text Page PageFacts LoadFacts.
Context {host : Host} {constants : Constants}.

(** C9: [runWorkflow] checks nowhere that it is still the active run, and
    the Run control does not keep a second run from starting.  While a run
    awaits the call for a task the control is disabled; loading pasted
    content then resets the document, which clears [isProcessing] (line
    127), and the control is enabled.  The run started there resets the
    tasks and awaits the call for the same task, on the new content.  When
    the call of the first run, made on the old content, then answers, its
    output is written by id on the task list as it stands and published: the
    task shows Success with the stale output while the second run still
    awaits the call for it. *)
Theorem stale_completion_after_a_load (now : nat) (p : State) (agent : Agent)
    (rest : list Agent) (L : Locals) (out : string) :
  (startOnPage p).1 = AwaitRunAgent agent rest L ->
  isBlank (pastedContent p) = false ->
  let first := startOnPage p in
  let loaded := handlePasteLoad now first.2 in
  let second := startOnPage loaded in
  let after := resumeOnPage first.1 (Some out) second.2 in
  runControlDisabled first.2 = true
  /\ documentContent L = DocumentFile.content (documentFile p)
  /\ runControlDisabled loaded = false
  /\ DocumentFile.content (documentFile loaded) = pastedContent p
  /\ (exists L', second.1 = AwaitRunAgent agent rest L'
                 /\ documentContent L' = pastedContent p)
  /\ agents (workflow second.2) !! 0 = Some (markRunning agent)
  /\ exists published more,
       trace (workflow after.2)
       = trace (workflow second.2) ++ SetAgents published :: more
       /\ published !! 0
          = Some (successfulUpdate out (extractOutputJson out) (markRunning agent)).
Proof.
  intros Hfirst Hblank first loaded second after.
  pose proof (isBlank_nonempty _ Hblank) as Hpasted.
  unfold startOnPage in Hfirst. cbn [fst] in Hfirst.
  destruct (start_AwaitRunAgent _ _ _ _ _ Hfirst) as (Htasks & HL & Hcontent & Hstate).
  assert (Hloaded : agentsToRun (workflow loaded) = agent :: rest).
  { unfold loaded, first, startOnPage, handlePasteLoad. cbn [snd].
    replace (pastedContent (withWorkflow _ p)) with (pastedContent p) by done.
    rewrite Hblank. unfold agentsToRun. simpl. rewrite Hstate. simpl.
    rewrite resetAgent_markRunning, <- Htasks. unfold agentsToRun.
    by rewrite resetAgent_twice. }
  assert (Hdoc : DocumentFile.content (documentFile loaded) = pastedContent p).
  { unfold loaded, first, startOnPage, handlePasteLoad. cbn [snd].
    replace (pastedContent (withWorkflow _ p)) with (pastedContent p) by done.
    by rewrite Hblank. }
  assert (Hsecond : start (DocumentFile.content (documentFile loaded)) (workflow loaded)
            = (AwaitRunAgent agent rest (initialLocals (pastedContent p) (workflow loaded)),
               beginIteration agent (initialLocals (pastedContent p) (workflow loaded))
                 (resetState (workflow loaded)))).
  { rewrite Hdoc. by apply start_on_tasks. }
  split_and!.
  - unfold runControlDisabled, runDisabled, first, startOnPage. simpl. by rewrite Hstate.
  - by rewrite HL.
  - unfold runControlDisabled, runDisabled. rewrite Hdoc.
    rewrite (bool_decide_eq_false_2 _ Hpasted), orb_false_r.
    unfold loaded, handlePasteLoad.
    replace (pastedContent first.2) with (pastedContent p) by done.
    rewrite Hblank. simpl. rewrite Hstate. simpl.
    apply bool_decide_eq_false_2. by rewrite mapById_length, Htasks.
  - done.
  - unfold second, startOnPage. rewrite Hsecond. simpl. eauto.
  - unfold second, startOnPage. rewrite Hsecond. simpl. rewrite Hloaded. simpl.
    by rewrite bool_decide_eq_true_2.
  - unfold after, resumeOnPage. cbn [snd]. unfold first at 1, startOnPage at 1.
    cbn [fst]. rewrite Hfirst. cbn [resume runAgent].
    destruct (enterLoop_frame rest (fulfilledLocals agent out L)
                (fulfilledState agent out (workflow second.2))) as [[more Hmore] _].
    eexists _, more. split.
    + cbn [snd]. unfold withWorkflow at 1. cbn [workflow]. rewrite Hmore.
      unfold fulfilledState, setAgents. cbn [trace].
      rewrite <- app_assoc. reflexivity.
    + unfold second, startOnPage. rewrite Hsecond. simpl. rewrite Hloaded. simpl.
      rewrite (bool_decide_eq_true_2 (id agent = id agent)) by done.
      by rewrite bool_decide_eq_true_2.
Qed.

End Load.

Module PageExamples.
Import Js Types GeminiService App Reading Text Page Demo PageDemo.

Lemma stale_completion_witness :
  (startOnPage pastingPage).1
  = AwaitRunAgent summaryTask [] (initialLocals document (idle [summaryTask]))
  /\ isBlank (pastedContent pastingPage) = false
  /\ runControlDisabled (startOnPage pastingPage).2 = true
  /\ runControlDisabled (handlePasteLoad 7 (startOnPage pastingPage).2) = false
  /\ agents (workflow (startOnPage (handlePasteLoad 7 (startOnPage pastingPage).2)).2) !! 0
     = Some (markRunning summaryTask).
Proof.
  assert (Hfirst : (startOnPage pastingPage).1
                   = AwaitRunAgent summaryTask []
                       (initialLocals document (idle [summaryTask]))) by reflexivity.
  assert (Hblank : isBlank (pastedContent pastingPage) = false) by reflexivity.
  destruct (stale_completion_after_a_load (host := demoHost) 7 pastingPage summaryTask []
              (initialLocals document (idle [summaryTask])) "stale" Hfirst Hblank)
    as (Hdisabled & _ & Henabled & _ & _ & Hrunning & _).
  split_and!; [exact Hfirst | exact Hblank | exact Hdisabled | exact Henabled | exact Hrunning].
Defined.

(** The whole of it on one task: the second run awaits the call for the
    task on the new text; the answer to the first run's call is written on
    the task; the first run goes on to its follow-up, stores the questions
    about the old document and clears [isProcessing], so that the Run control
    is enabled once more while the second run is still in flight. *)
Example stale_completion_in_detail :
  let first := startOnPage pastingPage in
  let loaded := handlePasteLoad 7 first.2 in
  let second := startOnPage loaded in
  let stale := resumeOnPage first.1 (Some "stale") second.2 in
  let finished := resumeOnPage stale.1 (Some "- Why?") stale.2 in
  second.1 = AwaitRunAgent summaryTask [] (initialLocals "A newer text." (workflow loaded))
  /\ (fun a => (status a, output a)) <$> agents (workflow second.2) = [(Running, None)]
  /\ (fun a => (status a, output a)) <$> agents (workflow stale.2)
     = [(Success, Some "stale")]
  /\ stale.1
     = AwaitFollowUp
         (mkLocals document [successfulUpdate "stale" Null summaryTask]
            [followUpEntry summaryTask "stale"] 1)
  /\ followUpQuestions (workflow finished.2) = Some "- Why?"
  /\ isProcessing (workflow finished.2) = false
  /\ runControlDisabled finished.2 = false.
Proof. cbn zeta. split_and!; reflexivity. Qed.

End PageExamples.
